(** * Options analyzer: a shallow embedding of [main.py]

    The development follows the class [OptionsAnalyzer] of [main.py]:
    the five metric formulas, the per-symbol analysis loop, the two
    writers and the orchestrating [run].

    Numbers.  A Python number is an [int] of any size or a [float], an
    IEEE 754 binary64 value.  Floats are [spec_float] values and their
    arithmetic is that of [SpecFloat] at precision 53 and maximal exponent
    1024: every operation rounds to nearest, ties to even, overflows to an
    infinity and underflows gradually.  What Python raises is kept:
    [ZeroDivisionError] on a zero divisor, [OverflowError] when an int is
    too large for a float or a float is infinite where an int is wanted,
    [ValueError] on [round(nan)].

    State.  A method is a function of the fields of the object and of the
    world (console, files, clock) that returns a value or raises, and the
    fields and world it leaves. *)

From Stdlib Require Import ZArith QArith Qabs Qround Lia Lqa List String Bool.
From Stdlib Require Import SpecFloat.
From Stdlib Require PrimFloat FloatOps.
Import ListNotations.

Local Open Scope Q_scope.

(** ** Results of fallible code *)

Inductive exn : Set :=
| ZeroDivisionError
| OverflowError
| ValueError
| KeyError
| TypeError
| OSError.

Inductive result (A : Type) : Type :=
| Ok (a : A)
| Raise (e : exn).

Arguments Ok {A} a.
Arguments Raise {A} e.

Definition rbind {A B : Type} (r : result A) (k : A -> result B) : result B :=
  match r with
  | Ok a => k a
  | Raise e => Raise e
  end.

Notation "'let*' x ':=' r 'in' k" := (rbind r (fun x => k))
  (at level 10, x name, r at level 100, k at level 200).

(** ** Python numbers *)

Inductive num : Type :=
| PInt (z : Z)
| PFloat (f : spec_float).

(** Binary64 arithmetic. *)
Definition fadd : spec_float -> spec_float -> spec_float := SFadd 53 1024.
Definition fsub : spec_float -> spec_float -> spec_float := SFsub 53 1024.
Definition fmul : spec_float -> spec_float -> spec_float := SFmul 53 1024.
Definition fdiv : spec_float -> spec_float -> spec_float := SFdiv 53 1024.

Definition is_infinity (f : spec_float) : bool :=
  match f with
  | S754_infinity _ => true
  | _ => false
  end.

Definition is_zero (f : spec_float) : bool :=
  match f with
  | S754_zero _ => true
  | _ => false
  end.

(** The float nearest to an int (ties to even); infinite when the int is
    out of range. *)
Definition float_of_Z (z : Z) : spec_float := binary_normalize 53 1024 z 0 false.

(** An int as mantissa with exponent 0, not normalised: an operand for
    [fdiv], which rounds the exact quotient. *)
Definition raw_float (z : Z) : spec_float :=
  match z with
  | Z0 => S754_zero false
  | Zpos p => S754_finite false p 0
  | Zneg p => S754_finite true p 0
  end.

(** A decimal literal [d * 10^-n], as the parser reads it: the nearest
    float. *)
Definition decimal (d : Z) (n : nat) : spec_float :=
  match d with
  | Z0 => S754_zero false
  | _ => fdiv (raw_float d) (raw_float (10 ^ Z.of_nat n))
  end.

(** The coercion of an operand of a float operation. *)
Definition to_float (x : num) : result spec_float :=
  match x with
  | PFloat f => Ok f
  | PInt z =>
      let f := float_of_Z z in
      if is_infinity f then Raise OverflowError else Ok f
  end.

Definition float_binop (op : spec_float -> spec_float -> spec_float)
    (x y : num) : result num :=
  let* a := to_float x in
  let* b := to_float y in
  Ok (PFloat (op a b)).

(** [x + y], [x - y], [x * y]: exact on two ints, in binary64 otherwise. *)
Definition py_add (x y : num) : result num :=
  match x, y with
  | PInt a, PInt b => Ok (PInt (a + b))
  | _, _ => float_binop fadd x y
  end.

Definition py_sub (x y : num) : result num :=
  match x, y with
  | PInt a, PInt b => Ok (PInt (a - b))
  | _, _ => float_binop fsub x y
  end.

Definition py_mul (x y : num) : result num :=
  match x, y with
  | PInt a, PInt b => Ok (PInt (a * b))
  | _, _ => float_binop fmul x y
  end.

(** [a / b] on two ints: the float nearest to the exact quotient. *)
Definition int_truediv (a b : Z) : result spec_float :=
  if Z.eqb b 0 then Raise ZeroDivisionError
  else
    let q := match a with
             | Z0 => S754_zero (Z.ltb b 0)
             | _ => fdiv (raw_float a) (raw_float b)
             end in
    if is_infinity q then Raise OverflowError else Ok q.

(** [x / y] *)
Definition py_truediv (x y : num) : result num :=
  match x, y with
  | PInt a, PInt b => let* q := int_truediv a b in Ok (PFloat q)
  | _, _ =>
      let* a := to_float x in
      let* b := to_float y in
      if is_zero b then Raise ZeroDivisionError else Ok (PFloat (fdiv a b))
  end.

(** Comparison of an int with a float is exact: the int is not rounded. *)
Definition cmp_Z_float (a : Z) (g : spec_float) : option comparison :=
  match g with
  | S754_nan => None
  | S754_infinity s => Some (if s then Gt else Lt)
  | S754_zero _ => Some (a ?= 0)%Z
  | S754_finite s m e =>
      Some (match e with
            | Zneg p => (a * Z.pow_pos 2 p ?= cond_Zopp s (Zpos m))%Z
            | _ => (a ?= cond_Zopp s (Zpos m) * 2 ^ e)%Z
            end)
  end.

Definition py_compare (x y : num) : option comparison :=
  match x, y with
  | PInt a, PInt b => Some (a ?= b)%Z
  | PFloat f, PFloat g => SFcompare f g
  | PInt a, PFloat g => cmp_Z_float a g
  | PFloat f, PInt b => option_map CompOpp (cmp_Z_float b f)
  end.

(** [x == y], [x < y], [x > y], [x >= y]; all false on a NaN. *)
Definition py_eq (x y : num) : bool :=
  match py_compare x y with
  | Some Eq => true
  | _ => false
  end.

Definition py_lt (x y : num) : bool :=
  match py_compare x y with
  | Some Lt => true
  | _ => false
  end.

Definition py_gt (x y : num) : bool :=
  match py_compare x y with
  | Some Gt => true
  | _ => false
  end.

Definition py_ge (x y : num) : bool :=
  match py_compare x y with
  | Some Gt | Some Eq => true
  | _ => false
  end.

(** The exact value of a finite float. *)
Definition pow2 (e : Z) : Q :=
  match e with
  | Z0 => 1
  | Zpos p => inject_Z (Z.pow_pos 2 p)
  | Zneg p => 1 # (Pos.pow 2 p)
  end.

Definition SF2Q (f : spec_float) : Q :=
  match f with
  | S754_finite s m e => inject_Z (cond_Zopp s (Zpos m)) * pow2 e
  | _ => 0
  end.

(** The integer nearest to a rational, a tie going to the even neighbour. *)
Definition py_round (x : Q) : Z :=
  let f := Qfloor x in
  match Qcompare (x - inject_Z f) (1 # 2) with
  | Lt => f
  | Gt => (f + 1)%Z
  | Eq => if Z.even f then f else (f + 1)%Z
  end.

(** [round(x)]: an int; the exact value of a float is rounded half to
    even. *)
Definition py_round_int (x : num) : result num :=
  match x with
  | PInt z => Ok (PInt z)
  | PFloat S754_nan => Raise ValueError
  | PFloat (S754_infinity _) => Raise OverflowError
  | PFloat f => Ok (PInt (py_round (SF2Q f)))
  end.

(** [round(x, ndigits)] for a non-negative [ndigits].  An int is returned
    as it is, and so are a zero, an infinity and a NaN.  Otherwise the
    exact value is rounded half to even to [k / 10^ndigits] and the result
    is the float nearest to that decimal. *)
Definition py_round_ndigits (x : num) (ndigits : nat) : result num :=
  match x with
  | PInt z => Ok (PInt z)
  | PFloat (S754_finite s m e as f) =>
      let scale := (10 ^ Z.of_nat ndigits)%Z in
      let k := py_round (SF2Q f * inject_Z scale) in
      let r := match k with
               | Z0 => S754_zero s
               | _ => fdiv (raw_float k) (raw_float scale)
               end in
      if is_infinity r then Raise OverflowError else Ok (PFloat r)
  | PFloat f => Ok (PFloat f)
  end.

(** ** The metric formulas of [OptionsAnalyzer] *)

Definition calculate_percentile (current high low : num) : result num :=
  if py_eq high low then Ok (PFloat (decimal 500 1))
  else
    let* a := py_sub current low in
    let* b := py_sub high low in
    let* q := py_truediv a b in
    py_mul q (PInt 100).

Definition default_strike_interval : num := PInt 50.

Definition find_nearest_strike (price strike_interval : num) : result num :=
  let* q := py_truediv price strike_interval in
  let* k := py_round_int q in
  py_mul k strike_interval.

Definition calculate_strike_with_margin
    (spot_price margin_percent : num) (is_call : bool) : result num :=
  let* nearest_strike := find_nearest_strike spot_price default_strike_interval in
  let* target_price :=
    if is_call then
      let* m := py_truediv margin_percent (PInt 100) in
      let* f := py_sub (PInt 1) m in
      py_mul nearest_strike f
    else
      let* m := py_truediv margin_percent (PInt 100) in
      let* f := py_add (PInt 1) m in
      py_mul nearest_strike f in
  find_nearest_strike target_price default_strike_interval.

Definition generate_option_premium
    (spot_price strike_price : num) (option_type : string) : result num :=
  let* base_premium :=
    if String.eqb option_type "CE" then
      if py_gt spot_price strike_price then
        let* a := py_sub spot_price strike_price in
        let* b := py_mul spot_price (PFloat (decimal 2 2)) in
        py_add a b
      else py_mul spot_price (PFloat (decimal 1 2))
    else
      if py_lt spot_price strike_price then
        let* a := py_sub strike_price spot_price in
        let* b := py_mul spot_price (PFloat (decimal 2 2)) in
        py_add a b
      else py_mul spot_price (PFloat (decimal 1 2)) in
  py_round_ndigits base_premium 2.

Definition default_days_to_expiry : num := PInt 30.

Definition calculate_irr (premium strike_price days_to_expiry : num) : result num :=
  let* margin_required := py_mul strike_price (PFloat (decimal 15 2)) in
  if py_eq margin_required (PInt 0) then Ok (PInt 0)
  else
    let* a := py_truediv premium margin_required in
    let* b := py_truediv (PInt 365) days_to_expiry in
    let* c := py_mul a b in
    let* irr := py_mul c (PInt 100) in
    py_round_ndigits irr 2.

(** ** Data model *)

(** A cell of a row: the program stores symbol names and numbers. *)
Inductive value : Type :=
| VStr (s : string)
| VNum (x : num).

(** A Python [dict] with string keys, in insertion order. *)
Definition dict : Type := list (string * value).

Fixpoint dict_get (k : string) (d : dict) : option value :=
  match d with
  | [] => None
  | (k', v) :: rest => if String.eqb k k' then Some v else dict_get k rest
  end.

Definition keys (d : dict) : list string := map fst d.

(** The records handed out by the data source. *)
Record SymbolRecord : Type := mkSymbol {
  symbol : string;
  spot_price : num;
  high_52w : num;
  low_52w : num;
  lot_size : num
}.

Definition get_sample_data : list SymbolRecord :=
  [ mkSymbol "NIFTY" (PInt 19500) (PInt 20000) (PInt 18000) (PInt 50);
    mkSymbol "BANKNIFTY" (PInt 44500) (PInt 46000) (PInt 42000) (PInt 25);
    mkSymbol "RELIANCE" (PInt 2450) (PInt 2650) (PInt 2250) (PInt 250);
    mkSymbol "TCS" (PInt 3600) (PInt 3850) (PInt 3200) (PInt 125);
    mkSymbol "INFY" (PInt 1480) (PInt 1600) (PInt 1350) (PInt 300);
    mkSymbol "HDFCBANK" (PInt 1650) (PInt 1750) (PInt 1450) (PInt 550);
    mkSymbol "ICICIBANK" (PInt 950) (PInt 1050) (PInt 850) (PInt 1375);
    mkSymbol "SBIN" (PInt 590) (PInt 650) (PInt 520) (PInt 1500);
    mkSymbol "BHARTIARTL" (PInt 880) (PInt 950) (PInt 750) (PInt 1220);
    mkSymbol "HINDUNILVR" (PInt 2580) (PInt 2800) (PInt 2350) (PInt 300) ].

(** The fields of an [OptionsAnalyzer] object. *)
Record OptionsAnalyzer : Type := mkAnalyzer {
  analysis_data : list dict;
  margin_percent : num;
  lot_multiplier : num
}.

(** A new object, as the constructor leaves it. *)
Definition __init__ : OptionsAnalyzer := mkAnalyzer [] (PInt 15) (PInt 1).

(** ** The analysis of one symbol: the body of the loop of [analyze] *)

Definition analyze_stock (self : OptionsAnalyzer) (stock : SymbolRecord) : result dict :=
  let spot := spot_price stock in
  let high := high_52w stock in
  let low := low_52w stock in
  let* percentile := calculate_percentile spot high low in
  let* ce_strike := calculate_strike_with_margin spot (margin_percent self) true in
  let* pe_strike := calculate_strike_with_margin spot (margin_percent self) false in
  let* ce_premium := generate_option_premium spot ce_strike "CE" in
  let* pe_premium := generate_option_premium spot pe_strike "PE" in
  let* ce_irr := calculate_irr ce_premium ce_strike default_days_to_expiry in
  let* pe_irr := calculate_irr pe_premium pe_strike default_days_to_expiry in
  let* adjusted_lot_size := py_mul (lot_size stock) (lot_multiplier self) in
  let* percentile_2 := py_round_ndigits percentile 2 in
  let* ce_irr_2 := py_round_ndigits ce_irr 2 in
  let* pe_irr_2 := py_round_ndigits pe_irr 2 in
  Ok [ ("Symbol", VStr (symbol stock));
       ("Spot Price", VNum spot);
       ("52W High", VNum high);
       ("52W Low", VNum low);
       ("Percentile", VNum percentile_2);
       ("Lot Size", VNum adjusted_lot_size);
       ("CE Strike", VNum ce_strike);
       ("CE Premium", VNum ce_premium);
       ("CE IRR", VNum ce_irr_2);
       ("PE Strike", VNum pe_strike);
       ("PE Premium", VNum pe_premium);
       ("PE IRR", VNum pe_irr_2);
       ("Margin Used (%)", VNum (margin_percent self)) ]%string.

(** ** The outside world: console, clock, files and the plotting library *)

(** A [pandas.DataFrame] built from a list of dicts: the column labels
    and, for every dict, the cell under each label (absent when the dict
    lacks the key).  A cell holds the value the dict holds; the conversion
    pandas applies to a column that mixes ints and floats is not
    followed. *)
Record DataFrame : Type := mkDataFrame {
  columns : list string;
  records : list (list (option value))
}.

Fixpoint add_new (ks seen : list string) : list string :=
  match ks with
  | [] => seen
  | k :: rest =>
      if existsb (String.eqb k) seen then add_new rest seen
      else add_new rest (seen ++ [k])
  end.

(** Labels in order of first appearance over the dicts. *)
Fixpoint union_keys (ds : list dict) (seen : list string) : list string :=
  match ds with
  | [] => seen
  | d :: rest => union_keys rest (add_new (keys d) seen)
  end.

Definition make_DataFrame (ds : list dict) : DataFrame :=
  let cols := union_keys ds [] in
  mkDataFrame cols (map (fun d => map (fun c => dict_get c d) cols) ds).

Fixpoint index_of (c : string) (cols : list string) : option nat :=
  match cols with
  | [] => None
  | c' :: rest =>
      if String.eqb c c' then Some O
      else match index_of c rest with
           | Some i => Some (S i)
           | None => None
           end
  end.

(** [df[col]]: the cells of one column, row by row. *)
Definition column (df : DataFrame) (col : string) : result (list (option value)) :=
  match index_of col (columns df) with
  | Some i => Ok (map (fun r => nth i r None) (records df))
  | None => Raise KeyError
  end.

(** A column used as numbers; an absent cell is pandas' NaN, written
    [None]. *)
Fixpoint as_numbers (cells : list (option value)) : result (list (option num)) :=
  match cells with
  | [] => Ok []
  | c :: rest =>
      let* qs := as_numbers rest in
      match c with
      | None => Ok (None :: qs)
      | Some (VNum q) => Ok (Some q :: qs)
      | Some (VStr _) => Raise TypeError
      end
  end.

Definition numeric_column (df : DataFrame) (col : string) : result (list (option num)) :=
  let* cells := column df col in as_numbers cells.

(** [chr(65 + idx)] is accepted as the letter of a sheet column when its
    upper-case form is one of A to Z: the capitals, the small letters, and
    the two other characters whose upper-case form is a capital (dotless i
    and long s). *)
Definition column_letter_ok (idx : nat) : bool :=
  (idx <? 26)%nat || ((32 <=? idx)%nat && (idx <? 58)%nat) ||
  (idx =? 240)%nat || (idx =? 318)%nat.

(** The sheet [to_excel(..., index=False)] writes: the header row, then
    one row per row of the frame; and the code points under which the
    width loop stored a column width.  The widths themselves, computed
    from the printed length of the cells, are not kept. *)
Record Workbook : Type := mkWorkbook {
  sheet_name : string;
  header : list string;
  data_rows : list (list (option value));
  width_keys : list nat
}.

Definition to_excel (df : DataFrame) (sheet : string) : Workbook :=
  mkWorkbook sheet (columns df) (records df)
             (map (fun idx => (65 + idx)%nat) (seq 0 (List.length (columns df)))).

(** The data behind the panels of the dashboard: the series of the two
    bar charts, the percentile bars with their colour (green from 50 up),
    the three price lines, and the operands of the two premium-to-strike
    ratios.  The averages of the fifth panel and the quotients of the
    sixth are computed by pandas from these series. *)
Record Figure : Type := mkFigure {
  irr_bars : list (option num) * list (option num);
  premium_bars : list (option num) * list (option num);
  percentile_bars : list (option num * bool);
  price_lines : list (option num) * list (option num) * list (option num);
  ratio_operands : (list (option num) * list (option num)) *
                   (list (option num) * list (option num))
}.

Inductive artifact : Type :=
| Spreadsheet (wb : Workbook)
| Damaged                       (* a file opened for writing and not completed *)
| Image (fig : Figure).

(** What [print] shows: text, with numbers left unformatted. *)
Inductive piece : Type :=
| Text (s : string)
| Number (x : num).

Record World : Type := mkWorld {
  stdout : list (list piece);
  files : list (string * artifact);
  clock : string;               (* [datetime.now().strftime("%Y%m%d_%H%M%S")] *)
  opening : string -> option exn;
    (* what opening a file of that name for writing raises: [OSError] from
       the file system, [ValueError] from the library for a name whose
       extension it does not handle *)
  draws : Figure -> option exn  (* what the plotting library raises on a figure *)
}.

(** ** Methods: state of the object and of the world, with exceptions.
    A raised exception leaves the mutations made so far in place. *)

Definition M (A : Type) : Type :=
  OptionsAnalyzer * World -> result A * (OptionsAnalyzer * World).

Definition ret {A : Type} (a : A) : M A := fun st => (Ok a, st).

Definition bind {A B : Type} (m : M A) (k : A -> M B) : M B :=
  fun st =>
    match m st with
    | (Ok a, st') => k a st'
    | (Raise e, st') => (Raise e, st')
    end.

Notation "x <- m ;; k" := (bind m (fun x => k))
  (at level 61, m at next level, right associativity).
Notation "m ;; k" := (bind m (fun _ => k))
  (at level 61, right associativity).

Definition lift {A : Type} (r : result A) : M A := fun st => (r, st).

Definition raise {A : Type} (e : exn) : M A := fun st => (Raise e, st).

Definition get_self : M OptionsAnalyzer := fun st => (Ok (fst st), st).

Definition set_self (f : OptionsAnalyzer -> OptionsAnalyzer) : M unit :=
  fun st => (Ok tt, (f (fst st), snd st)).

Definition with_line (w : World) (line : list piece) : World :=
  mkWorld (stdout w ++ [line]) (files w) (clock w) (opening w) (draws w).

Definition with_file (w : World) (name : string) (a : artifact) : World :=
  mkWorld (stdout w) ((name, a) :: files w) (clock w) (opening w) (draws w).

Definition print (line : list piece) : M unit :=
  fun st => (Ok tt, (fst st, with_line (snd st) line)).

Definition now : M string := fun st => (Ok (clock (snd st)), st).

Definition write_file (name : string) (a : artifact) : M unit :=
  fun st =>
    match opening (snd st) name with
    | None => (Ok tt, (fst st, with_file (snd st) name a))
    | Some e => (Raise e, st)
    end.

(** Drawing a figure: the library accepts it or raises. *)
Definition draw (fig : Figure) : M unit :=
  fun st =>
    match draws (snd st) fig with
    | None => (Ok tt, st)
    | Some e => (Raise e, st)
    end.

(** The file a name refers to: the last one written under it. *)
Fixpoint read_file (name : string) (fs : list (string * artifact)) : option artifact :=
  match fs with
  | [] => None
  | (n, a) :: rest => if String.eqb name n then Some a else read_file name rest
  end.

(** ** [analyze] *)

Definition append_row (row_data : dict) : M unit :=
  set_self (fun self =>
    mkAnalyzer (analysis_data self ++ [row_data]) (margin_percent self) (lot_multiplier self)).

Fixpoint analyze_loop (stocks : list SymbolRecord) : M unit :=
  match stocks with
  | [] => ret tt
  | stock :: rest =>
      self <- get_self ;;
      row_data <- lift (analyze_stock self stock) ;;
      append_row row_data ;;
      analyze_loop rest
  end.

Definition len_number {A : Type} (l : list A) : num := PInt (Z.of_nat (List.length l)).

(** [analyze], with the list its data source returned. *)
Definition analyze_with (stocks : list SymbolRecord) : M (list dict) :=
  print [Text "🔄 Starting Options Analysis..."] ;;
  analyze_loop stocks ;;
  self <- get_self ;;
  print [Text "✅ Analysis completed for "; Number (len_number (analysis_data self));
         Text " symbols!"] ;;
  ret (analysis_data self).

Definition analyze : M (list dict) := analyze_with get_sample_data.

(** ** [save_to_excel] *)

(** The file is opened when the writer is created; the sheet and the
    column widths are stored in memory and written out when the [with]
    block ends, where a width stored under a key that is no column letter
    makes the writer raise [ValueError], the file left incomplete. *)
Definition save_to_excel (filename : option string) : M (option string) :=
  self <- get_self ;;
  match analysis_data self with
  | [] =>
      print [Text "❌ No data to export. Run analyze() first."] ;;
      ret None
  | _ =>
      let df := make_DataFrame (analysis_data self) in
      filename <- match filename with
                  | Some f => ret f
                  | None =>
                      timestamp <- now ;;
                      ret ("Options_Analysis_" ++ timestamp ++ ".xlsx")%string
                  end ;;
      if forallb column_letter_ok (seq 0 (List.length (columns df))) then
        write_file filename (Spreadsheet (to_excel df "Options Analysis")) ;;
        print [Text "✅ Excel file saved: "; Text filename] ;;
        ret (Some filename)
      else
        write_file filename Damaged ;;
        raise ValueError
  end.

(** ** [save_graphs] *)

(** The colour test of the percentile panel, [p >= 50]. *)
Fixpoint percentile_colours (cells : list (option value))
  : result (list (option num * bool)) :=
  match cells with
  | [] => Ok []
  | c :: rest =>
      let* cs := percentile_colours rest in
      match c with
      | None => Ok ((None, false) :: cs)
      | Some (VNum p) => Ok ((Some p, py_ge p (PInt 50)) :: cs)
      | Some (VStr _) => Raise TypeError
      end
  end.

Definition build_figure (df : DataFrame) : result Figure :=
  let* ce_irr := numeric_column df "CE IRR" in
  let* pe_irr := numeric_column df "PE IRR" in
  let* _ := column df "Symbol" in
  let* ce_premium := numeric_column df "CE Premium" in
  let* pe_premium := numeric_column df "PE Premium" in
  let* percentile := column df "Percentile" in
  let* colors := percentile_colours percentile in
  let* spot := numeric_column df "Spot Price" in
  let* ce_strike := numeric_column df "CE Strike" in
  let* pe_strike := numeric_column df "PE Strike" in
  Ok (mkFigure (ce_irr, pe_irr)
               (ce_premium, pe_premium)
               colors
               (spot, ce_strike, pe_strike)
               ((ce_premium, ce_strike), (pe_premium, pe_strike))).

Definition save_graphs (filename : option string) : M (option string) :=
  self <- get_self ;;
  match analysis_data self with
  | [] =>
      print [Text "❌ No data to plot. Run analyze() first."] ;;
      ret None
  | _ =>
      print [Text "📊 Generating graphs..."] ;;
      let df := make_DataFrame (analysis_data self) in
      filename <- match filename with
                  | Some f => ret f
                  | None =>
                      timestamp <- now ;;
                      ret ("Options_Analysis_Graphs_" ++ timestamp ++ ".png")%string
                  end ;;
      fig <- lift (build_figure df) ;;
      draw fig ;;
      write_file filename (Image fig) ;;
      print [Text "✅ Graphs saved: "; Text filename] ;;
      ret (Some filename)
  end.

(** ** [run] *)

Definition newline : string := String (Ascii.ascii_of_nat 10) EmptyString.

Fixpoint repeat_string (s : string) (n : nat) : string :=
  match n with
  | O => EmptyString
  | S n' => (s ++ repeat_string s n')%string
  end.

Definition str_optional (f : option string) : string :=
  match f with
  | Some name => name
  | None => "None"
  end.

Definition run_with (stocks : list SymbolRecord) (margin lot : num)
  : M (option string * option string) :=
  print [Text (newline ++ repeat_string "=" 60)] ;;
  print [Text "🚀 NSE OPTIONS TRADING ANALYZER"] ;;
  print [Text (repeat_string "=" 60)] ;;
  set_self (fun self => mkAnalyzer (analysis_data self) margin lot) ;;
  print [Text (newline ++ "⚙️  Configuration:")] ;;
  print [Text "   - Margin Percentage: "; Number margin; Text "%"] ;;
  print [Text "   - Lot Size Multiplier: "; Number lot; Text "x"] ;;
  print [] ;;
  analyze_with stocks ;;
  excel_file <- save_to_excel None ;;
  graph_file <- save_graphs None ;;
  print [Text (newline ++ repeat_string "=" 60)] ;;
  print [Text "✨ ANALYSIS COMPLETE!"] ;;
  print [Text (repeat_string "=" 60)] ;;
  print [Text "📄 Excel Report: "; Text (str_optional excel_file)] ;;
  print [Text "📊 Graphs: "; Text (str_optional graph_file)] ;;
  print [Text (repeat_string "=" 60 ++ newline)] ;;
  ret (excel_file, graph_file).

Definition run (margin lot : num) : M (option string * option string) :=
  run_with get_sample_data margin lot.

(** The script: a new analyzer, one run with the default parameters. *)
Definition main : M (option string * option string) :=
  set_self (fun _ => __init__) ;;
  run (PInt 15) (PInt 1).

(** * The worked example on hardware floats *)

(** The arithmetic [analyze] performs for the record NIFTY with a margin
    of 15, on the primitive binary64 floats of the prover, whose
    operations are those of the processor. *)
Set Warnings "-inexact-float".
Module Binary64.
Import PrimFloat.
Local Open Scope float_scope.

Definition percentile : float := ((19500 - 18000) / (20000 - 18000)) * 100.
Definition nearest_strike_quotient : float := 19500 / 50.
Definition target_price : float := 19500 * (1 - 15 / 100).
Definition base_premium : float := (19500 - 16600) + 19500 * 0.02.
Definition margin_required : float := 16600 * 0.15.
Definition irr : float := (3290 / margin_required) * (365 / 30) * 100.

Definition example_checks : bool :=
  (percentile =? 75) &&
  (nearest_strike_quotient =? 390) &&
  (target_price / 50 =? 331.5) &&
  (base_premium =? 3290) &&
  (margin_required =? 2490) &&
  (1607.555 <? irr) && (irr <? 1607.565).
End Binary64.
Set Warnings "inexact-float".

(** ** Vocabulary on floats *)

(** The float 1.0. *)
Definition f_one : spec_float := S754_finite false 4503599627370496 (-52).

(** [M * 2^E] is the integer [z]. *)
Definition int_value (z : Z) (M : positive) (E : Z) : Prop :=
  ((0 <= E)%Z /\ z = (Zpos M * 2 ^ E)%Z) \/ ((E < 0)%Z /\ (z * 2 ^ (- E))%Z = Zpos M).


(** Mantissa and exponent of the float of a nonzero integer below 2^53. *)
Definition small_mantissa (z : Z) : positive :=
  Z.to_pos (Z.abs z * 2 ^ (53 - Zdigits2 z)).

Definition small_exponent (z : Z) : Z := (Zdigits2 z - 53)%Z.

Definition is_finite (f : spec_float) : bool :=
  match f with
  | S754_finite _ _ _ | S754_zero _ => true
  | _ => false
  end.

(** [k] is [x] rounded to the nearest integer, ties to even: the wording
    of the specification, to compare [py_round] with. *)
Definition round_half_even (x : Q) (k : Z) : Prop :=
  Qabs (x - inject_Z k) < 1 # 2 \/
  (Qabs (x - inject_Z k) == 1 # 2 /\ Z.even k = true).

(** ** Vocabulary on the formulas: the wording of the specification *)


(** [(above - below) + spot * 0.02], the premium of an option in the
    money, and [spot * 0.01], the premium of one that is not. *)
Definition intrinsic_plus_time (spot above below : num) : result num :=
  let* intrinsic := py_sub above below in
  let* time_value := py_mul spot (PFloat (decimal 2 2)) in
  py_add intrinsic time_value.

Definition time_value_only (spot : num) : result num :=
  py_mul spot (PFloat (decimal 1 2)).

(** [(premium / margin) * (365 / days) * 100], evaluated by Python. *)
Definition irr_formula (premium margin days : num) : result num :=
  let* yield := py_truediv premium margin in
  let* periods := py_truediv (PInt 365) days in
  let* annual := py_mul yield periods in
  py_mul annual (PInt 100).

(** [r] is [b] rounded to [ndigits] decimals: an int, a zero, an infinity
    and a NaN are kept; a finite float is rounded half to even to a whole
    number [k] of units of [10^-ndigits], and [r] is the float nearest to
    that decimal (a zero keeps the sign of [b]). *)
Definition rounded_to (ndigits : nat) (b r : num) : Prop :=
  match b with
  | PInt z => r = PInt z
  | PFloat (S754_finite s m e as f) =>
      exists k : Z,
        round_half_even (SF2Q f * inject_Z (10 ^ Z.of_nat ndigits)) k /\
        r = PFloat (match k with
                    | Z0 => S754_zero s
                    | _ => decimal k ndigits
                    end)
  | PFloat f => r = PFloat f
  end.

(** A number that compares equal to 0: the int 0, or a float zero of
    either sign. *)
Definition is_zero_number (x : num) : Prop :=
  x = PInt 0 \/ exists s, x = PFloat (S754_zero s).

(** ** Vocabulary on rows, files and runs *)

Definition nifty : SymbolRecord :=
  mkSymbol "NIFTY" (PInt 19500) (PInt 20000) (PInt 18000) (PInt 50).

(** The keys of every row [analyze] stores, in insertion order. *)
Definition analysis_columns : list string :=
  [ "Symbol"; "Spot Price"; "52W High"; "52W Low"; "Percentile"; "Lot Size";
    "CE Strike"; "CE Premium"; "CE IRR"; "PE Strike"; "PE Premium"; "PE IRR";
    "Margin Used (%)" ]%string.

(** The shape of the dict [analyze] builds: the thirteen keys in order, a
    string under the first and numbers under the others. *)
Definition is_analysis_row (d : dict) : Prop :=
  exists (sym : string) (spot high low pct lot ces cep cei pes pep pei m : num),
    d = [ ("Symbol", VStr sym); ("Spot Price", VNum spot);
          ("52W High", VNum high); ("52W Low", VNum low);
          ("Percentile", VNum pct); ("Lot Size", VNum lot);
          ("CE Strike", VNum ces); ("CE Premium", VNum cep);
          ("CE IRR", VNum cei); ("PE Strike", VNum pes);
          ("PE Premium", VNum pep); ("PE IRR", VNum pei);
          ("Margin Used (%)", VNum m) ]%string.

(** The cells of a row of the frame, for a dict of the thirteen keys. *)
Definition cells_of (d : dict) : list (option value) :=
  map (fun kv => Some (snd kv)) d.

(** What the loop of [analyze] does with a list of records: the rows of
    the records it gets through, in order, and the exception that stops it,
    if one does. *)
Fixpoint analysed (self : OptionsAnalyzer) (stocks : list SymbolRecord)
  : list dict * option exn :=
  match stocks with
  | [] => ([], None)
  | stock :: rest =>
      match analyze_stock self stock with
      | Ok row => let (rows, e) := analysed self rest in (row :: rows, e)
      | Raise e => ([], Some e)
      end
  end.

(** [rows] are the analyses of [stocks], one for one and in order. *)
Definition rows_of (self : OptionsAnalyzer) (stocks : list SymbolRecord)
    (rows : list dict) : Prop :=
  Forall2 (fun stock row => analyze_stock self stock = Ok row) stocks rows.

(** A data row of the sheet that belongs to a record: it starts with the
    symbol, spot price, high and low of the record, and it is the row the
    analysis of the record gives. *)
Definition row_of_record (self : OptionsAnalyzer) (stock : SymbolRecord)
    (cells : list (option value)) : Prop :=
  nth 0 cells None = Some (VStr (symbol stock)) /\
  nth 1 cells None = Some (VNum (spot_price stock)) /\
  nth 2 cells None = Some (VNum (high_52w stock)) /\
  nth 3 cells None = Some (VNum (low_52w stock)) /\
  List.length cells = 13%nat /\
  exists row, analyze_stock self stock = Ok row /\ cells = cells_of row.

Definition with_rows (self : OptionsAnalyzer) (rows : list dict) : OptionsAnalyzer :=
  mkAnalyzer (analysis_data self ++ rows) (margin_percent self) (lot_multiplier self).

Definition starting_line : list piece := [Text "🔄 Starting Options Analysis..."].

Definition completed_line (rows : list dict) : list piece :=
  [Text "✅ Analysis completed for "; Number (len_number rows); Text " symbols!"].

(** The name [save_to_excel] writes to. *)
Definition excel_filename (filename : option string) (w : World) : string :=
  match filename with
  | Some f => f
  | None => ("Options_Analysis_" ++ clock w ++ ".xlsx")%string
  end.


(** A world to run the examples in: nothing printed or written yet,
    every write and every figure accepted. *)
Definition empty_world : World :=
  mkWorld [] [] "20240101_093000" (fun _ => None) (fun _ => None).

(** A method that leaves the fields of the analyzer as they are, whether
    it returns or raises. *)
Definition preserves_self {A : Type} (m : M A) : Prop :=
  forall st, fst (snd (m st)) = fst st.

(** The world [run] hands to [analyze]: its banner printed. *)
Definition after_banner (w : World) (margin lot : num) : World :=
  with_line
    (with_line
      (with_line
        (with_line
          (with_line
            (with_line
              (with_line w [Text (newline ++ repeat_string "=" 60)])
              [Text "🚀 NSE OPTIONS TRADING ANALYZER"])
            [Text (repeat_string "=" 60)])
          [Text (newline ++ "⚙️  Configuration:")])
        [Text "   - Margin Percentage: "; Number margin; Text "%"])
      [Text "   - Lot Size Multiplier: "; Number lot; Text "x"])
    [].

(** The part of [run] that follows [analyze]: both writers, then the
    closing lines. *)
Definition save_outputs : M (option string * option string) :=
  excel_file <- save_to_excel None ;;
  graph_file <- save_graphs None ;;
  print [Text (newline ++ repeat_string "=" 60)] ;;
  print [Text "✨ ANALYSIS COMPLETE!"] ;;
  print [Text (repeat_string "=" 60)] ;;
  print [Text "📄 Excel Report: "; Text (str_optional excel_file)] ;;
  print [Text "📊 Graphs: "; Text (str_optional graph_file)] ;;
  print [Text (repeat_string "=" 60 ++ newline)] ;;
  ret (excel_file, graph_file).

(** The number of data rows of the report a state holds under a name. *)
Definition report_rows (name : string) (st : OptionsAnalyzer * World) : option nat :=
  match read_file name (files (snd st)) with
  | Some (Spreadsheet wb) => Some (List.length (data_rows wb))
  | _ => None
  end.


(** * Properties *)

(** ** Binary64: digits and exact shifts *)

Section Binary64Facts.
Local Open Scope Z_scope.

Lemma digits2_pos_size (p : positive) : digits2_pos p = Pos.size p.
Proof. induction p; cbn; congruence. Qed.

Lemma Zdigits2_log2 (p : positive) : Zdigits2 (Zpos p) = Z.log2 (Zpos p) + 1.
Proof.
  cbn [Zdigits2]. rewrite digits2_pos_size.
  destruct p; cbn; lia.
Qed.

Lemma Zdigits2_bounds (p : positive) :
  2 ^ (Zdigits2 (Zpos p) - 1) <= Zpos p < 2 ^ Zdigits2 (Zpos p).
Proof.
  rewrite Zdigits2_log2.
  replace (Z.log2 (Zpos p) + 1 - 1) with (Z.log2 (Zpos p)) by lia.
  replace (Z.log2 (Zpos p) + 1) with (Z.succ (Z.log2 (Zpos p))) by lia.
  apply Z.log2_spec. lia.
Qed.

Lemma Zdigits2_pos (p : positive) : 0 < Zdigits2 (Zpos p).
Proof. cbn. lia. Qed.

Lemma Zdigits2_nonneg (z : Z) : 0 <= Zdigits2 z.
Proof. destruct z; cbn; lia. Qed.

Lemma Zdigits2_shift (p : positive) (n : Z) :
  0 <= n -> Zdigits2 (Zpos p * 2 ^ n) = Zdigits2 (Zpos p) + n.
Proof.
  intros Hn.
  assert (Hpos : 0 < Zpos p * 2 ^ n)
    by (apply Z.mul_pos_pos; [lia | apply Z.pow_pos_nonneg; lia]).
  destruct (Zpos p * 2 ^ n) as [| q | q] eqn:E; try lia.
  rewrite !Zdigits2_log2, <- E.
  rewrite Z.log2_mul_pow2 by lia. lia.
Qed.

Lemma Zdigits2_mul_le (p q : positive) :
  Zdigits2 (Zpos (p * q)) <= Zdigits2 (Zpos p) + Zdigits2 (Zpos q).
Proof.
  destruct (Zdigits2_bounds p) as [_ Hp], (Zdigits2_bounds q) as [_ Hq].
  destruct (Zdigits2_bounds (p * q)) as [Hl _].
  assert (H0p := Zdigits2_pos p). assert (H0q := Zdigits2_pos q).
  assert (Hlt : Zpos (p * q) < 2 ^ (Zdigits2 (Zpos p) + Zdigits2 (Zpos q))).
  { rewrite Z.pow_add_r by lia. rewrite Pos2Z.inj_mul.
    apply Z.mul_lt_mono_nonneg; lia. }
  assert (H : 2 ^ (Zdigits2 (Zpos (p * q)) - 1)
              < 2 ^ (Zdigits2 (Zpos p) + Zdigits2 (Zpos q))) by lia.
  apply Z.pow_lt_mono_r_iff in H; lia.
Qed.

(** A lower bound on a positive number bounds its digits from below. *)
Lemma Zdigits2_ge (z n : Z) : 0 <= n -> 2 ^ n <= z -> n + 1 <= Zdigits2 z.
Proof.
  intros Hn Hz.
  assert (0 < 2 ^ n) by (apply Z.pow_pos_nonneg; lia).
  destruct z as [| p | p]; try lia.
  destruct (Zdigits2_bounds p) as [_ Hu].
  assert (Hlt : 2 ^ n < 2 ^ Zdigits2 (Zpos p)) by lia.
  apply Z.pow_lt_mono_r_iff in Hlt; [lia | lia | apply Zdigits2_nonneg].
Qed.

Lemma Zdigits2_le_mono (a b : Z) : 0 <= a <= b -> Zdigits2 a <= Zdigits2 b.
Proof.
  intros [Ha Hab].
  destruct a as [| p | p]; try lia; [apply Zdigits2_nonneg |].
  destruct b as [| q | q]; try lia.
  rewrite !Zdigits2_log2.
  assert (Z.log2 (Zpos p) <= Z.log2 (Zpos q)) by (apply Z.log2_le_mono; lia).
  lia.
Qed.

(** Digits after dropping [n] low bits. *)
Lemma Zdigits2_div_pow2 (p : positive) (n : Z) :
  0 <= n -> 0 < Zpos p / 2 ^ n ->
  Zdigits2 (Zpos p / 2 ^ n) = Zdigits2 (Zpos p) - n.
Proof.
  intros Hn Hpos.
  destruct (Zpos p / 2 ^ n) as [| q | q] eqn:E; try lia.
  rewrite !Zdigits2_log2, <- E.
  rewrite <- Z.shiftr_div_pow2 by lia.
  rewrite Z.log2_shiftr by lia.
  assert (0 <= Z.log2 (Z.shiftr (Zpos p) n)) by apply Z.log2_nonneg.
  assert (Hs : 0 < Z.shiftr (Zpos p) n) by (rewrite Z.shiftr_div_pow2 by lia; lia).
  destruct (Z_le_gt_dec n (Z.log2 (Zpos p))) as [Hle | Hgt]; [lia |].
  exfalso.
  rewrite Z.shiftr_div_pow2 in Hs by lia.
  assert (Hlt : Zpos p < 2 ^ n).
  { destruct (Z.log2_spec (Zpos p)) as [_ Hu]; [lia |].
    eapply Z.lt_le_trans; [exact Hu |].
    apply Z.pow_le_mono_r; lia. }
  rewrite Z.div_small in Hs by lia. lia.
Qed.

Lemma pow2_xO (p : positive) : 2 ^ Zpos p~0 = 2 ^ Zpos p * 2 ^ Zpos p.
Proof.
  replace (Zpos p~0) with (Zpos p + Zpos p) by lia.
  apply Z.pow_add_r; lia.
Qed.

Lemma pow2_xI (p : positive) : 2 ^ Zpos p~1 = 2 * (2 ^ Zpos p * 2 ^ Zpos p).
Proof.
  replace (Zpos p~1) with (1 + (Zpos p + Zpos p)) by lia.
  rewrite Z.pow_add_r, Z.pow_add_r by lia. reflexivity.
Qed.

Lemma shr_1_double (M : Z) :
  0 <= M ->
  shr_1 (Build_shr_record (2 * M) false false) = Build_shr_record M false false.
Proof. intros H. destruct M; try lia; reflexivity. Qed.

(** Shifting out zero bits loses nothing. *)
Lemma shr_exact (p : positive) (M : Z) :
  0 <= M ->
  iter_pos shr_1 p (Build_shr_record (2 ^ Zpos p * M) false false)
  = Build_shr_record M false false.
Proof.
  revert M. induction p as [p IH | p IH |]; intros M HM; cbn [iter_pos].
  - assert (H0 : 0 <= 2 ^ Zpos p * M) by (apply Z.mul_nonneg_nonneg; lia).
    assert (H1 : 0 <= 2 ^ Zpos p * (2 ^ Zpos p * M)) by (apply Z.mul_nonneg_nonneg; lia).
    replace (2 ^ Zpos p~1 * M) with (2 * (2 ^ Zpos p * (2 ^ Zpos p * M)))
      by (rewrite pow2_xI; ring).
    rewrite shr_1_double, IH, IH by assumption. reflexivity.
  - assert (H0 : 0 <= 2 ^ Zpos p * M) by (apply Z.mul_nonneg_nonneg; lia).
    replace (2 ^ Zpos p~0 * M) with (2 ^ Zpos p * (2 ^ Zpos p * M))
      by (rewrite pow2_xO; ring).
    rewrite IH, IH by assumption. reflexivity.
  - change (2 ^ 1) with 2. apply shr_1_double. exact HM.
Qed.

(** The mantissa a shift leaves, whatever bits it drops. *)
Lemma shr_1_m (r : shr_record) : 0 <= shr_m r -> shr_m (shr_1 r) = shr_m r / 2.
Proof.
  destruct r as [m r s]. cbn [shr_m]. intros H.
  destruct m as [| [p | p |] | p]; try lia; cbn [shr_1 shr_m].
  - reflexivity.
  - rewrite Pos2Z.inj_xI. apply (Z.div_unique _ 2 _ 1); lia.
  - rewrite Pos2Z.inj_xO. apply (Z.div_unique _ 2 _ 0); lia.
  - reflexivity.
Qed.

Lemma shr_m_iter (p : positive) (r : shr_record) :
  0 <= shr_m r -> shr_m (iter_pos shr_1 p r) = shr_m r / 2 ^ Zpos p.
Proof.
  revert r. induction p as [p IH | p IH |]; intros r Hr; cbn [iter_pos].
  - assert (H1 : 0 <= shr_m (shr_1 r))
      by (rewrite shr_1_m by exact Hr; apply Z.div_pos; lia).
    assert (H2 : 0 <= shr_m (iter_pos shr_1 p (shr_1 r)))
      by (rewrite IH by exact H1; apply Z.div_pos; [lia | apply Z.pow_pos_nonneg; lia]).
    rewrite IH, IH, shr_1_m by assumption.
    rewrite pow2_xI.
    assert (Hp : 0 < 2 ^ Zpos p) by (apply Z.pow_pos_nonneg; lia).
    rewrite !Z.div_div by nia.
    reflexivity.
  - assert (H2 : 0 <= shr_m (iter_pos shr_1 p r))
      by (rewrite IH by exact Hr; apply Z.div_pos; [lia | apply Z.pow_pos_nonneg; lia]).
    rewrite IH, IH by assumption.
    rewrite pow2_xO.
    assert (Hp : 0 < 2 ^ Zpos p) by (apply Z.pow_pos_nonneg; lia).
    rewrite Z.div_div by lia.
    reflexivity.
  - rewrite shr_1_m by exact Hr. reflexivity.
Qed.

Lemma shr_record_of_loc_m (m : Z) (l : location) : shr_m (shr_record_of_loc m l) = m.
Proof. destruct l as [| []]; reflexivity. Qed.

Lemma fexp_monotone (a b : Z) : a <= b -> fexp 53 1024 a <= fexp 53 1024 b.
Proof. unfold fexp, emin. lia. Qed.

Lemma fexp_ge_emin (a : Z) : -1074 <= fexp 53 1024 a.
Proof. unfold fexp, emin. lia. Qed.

(** The first step of rounding: the mantissa is cut to the exponent of
    its magnitude. *)
Lemma shr_fexp_spec (m e : Z) (l : location) :
  0 <= m -> e <= fexp 53 1024 (Zdigits2 m + e) ->
  snd (shr_fexp 53 1024 m e l) = fexp 53 1024 (Zdigits2 m + e) /\
  shr_m (fst (shr_fexp 53 1024 m e l))
  = m / 2 ^ (fexp 53 1024 (Zdigits2 m + e) - e).
Proof.
  intros Hm He. unfold shr_fexp, shr.
  destruct (fexp 53 1024 (Zdigits2 m + e) - e) as [| p | p] eqn:En; try lia;
    cbn [fst snd].
  - split; [lia |]. rewrite shr_record_of_loc_m, Z.pow_0_r, Z.div_1_r. reflexivity.
  - split; [lia |]. rewrite shr_m_iter by (rewrite shr_record_of_loc_m; exact Hm).
    rewrite shr_record_of_loc_m. reflexivity.
Qed.

Lemma round_nearest_even_bounds (m : Z) (l : location) :
  m <= round_nearest_even m l <= m + 1.
Proof.
  unfold round_nearest_even.
  destruct l as [| []]; try lia. destruct (Z.even m); lia.
Qed.

(** Rounding produces a float of the format (possibly a zero or an
    infinity), whatever the mantissa it is given. *)
Lemma binary_round_aux_valid (s : bool) (m e : Z) (l : location) :
  0 <= m -> e <= fexp 53 1024 (Zdigits2 m + e) ->
  valid_binary 53 1024 (binary_round_aux 53 1024 s m e l) = true.
Proof.
  intros Hm He.
  destruct (shr_fexp_spec m e l Hm He) as [He1 Hm1].
  unfold binary_round_aux.
  destruct (shr_fexp 53 1024 m e l) as [mrs1 e1] eqn:E1. cbn [fst snd] in He1, Hm1.
  set (n1 := fexp 53 1024 (Zdigits2 m + e) - e) in *.
  assert (Hn1 : 0 <= n1) by (unfold n1; lia).
  assert (Hp1 : 0 < 2 ^ n1) by (apply Z.pow_pos_nonneg; lia).
  assert (Hm1n : 0 <= shr_m mrs1) by (rewrite Hm1; apply Z.div_pos; lia).
  set (m2 := round_nearest_even (shr_m mrs1) (loc_of_shr_record mrs1)).
  assert (Hm2 : shr_m mrs1 <= m2 <= shr_m mrs1 + 1) by apply round_nearest_even_bounds.
  (* the second cut does not go below the first exponent *)
  assert (He2 : e1 <= fexp 53 1024 (Zdigits2 m2 + e1)).
  { rewrite He1.
    destruct (Z.eq_dec (fexp 53 1024 (Zdigits2 m + e)) (-1074)) as [Hmin | Hnorm].
    - rewrite Hmin. apply fexp_ge_emin.
    - assert (Hf : fexp 53 1024 (Zdigits2 m + e) = Zdigits2 m + e - 53)
        by (unfold fexp, emin in *; lia).
      apply fexp_monotone.
      assert (Hd : 53 <= Zdigits2 m) by (unfold n1 in Hn1; lia).
      destruct m as [| p | p]; [cbn in Hd; lia | | lia].
      assert (Hn1v : n1 = Zdigits2 (Zpos p) - 53) by (unfold n1; lia).
      assert (Hq : 2 ^ 52 <= Zpos p / 2 ^ n1).
      { destruct (Zdigits2_bounds p) as [Hl _].
        apply Z.div_le_lower_bound; [lia |].
        rewrite <- Z.pow_add_r by lia.
        replace (n1 + 52) with (Zdigits2 (Zpos p) - 1) by lia. exact Hl. }
      assert (Hd2 : 53 <= Zdigits2 m2).
      { apply (Zdigits2_ge m2 52); [lia |]. rewrite <- Hm1 in Hq. lia. }
      lia. }
  assert (Hm2n : 0 <= m2) by lia.
  destruct (shr_fexp_spec m2 e1 loc_Exact Hm2n He2) as [He3 Hm3].
  destruct (shr_fexp 53 1024 m2 e1 loc_Exact) as [mrs2 e2] eqn:E2.
  cbn [fst snd] in He3, Hm3.
  set (n2 := fexp 53 1024 (Zdigits2 m2 + e1) - e1) in *.
  assert (Hn2 : 0 <= n2) by (unfold n2; lia).
  destruct (shr_m mrs2) as [| p3 | p3] eqn:E3; [reflexivity | | ].
  - destruct (Z.leb_spec e2 (1024 - 53)) as [Hle | Hgt]; [| reflexivity].
    cbn [valid_binary]. unfold bounded, canonical_mantissa.
    apply andb_true_intro. split; [| apply Z.leb_le; exact Hle].
    apply Z.eqb_eq.
    change (Zpos (digits2_pos p3)) with (Zdigits2 (Zpos p3)).
    destruct m2 as [| p2 | p2]; try lia.
    { rewrite Z.div_0_l in Hm3 by (apply Z.pow_nonzero; lia). lia. }
    rewrite Hm3, Zdigits2_div_pow2 by lia.
    rewrite He3. f_equal. unfold n2. lia.
  - exfalso.
    assert (0 <= m2 / 2 ^ n2) by (apply Z.div_pos; [lia | apply Z.pow_pos_nonneg; lia]).
    lia.
Qed.

(** The result of rounding is never a NaN. *)
Lemma binary_round_aux_not_nan (s : bool) (m e : Z) (l : location) :
  0 <= m -> binary_round_aux 53 1024 s m e l <> S754_nan.
Proof.
  intros Hm. unfold binary_round_aux.
  assert (Hsh : forall m0 e0 l0, 0 <= m0 ->
            0 <= shr_m (fst (shr_fexp 53 1024 m0 e0 l0))).
  { intros m0 e0 l0 H0. unfold shr_fexp, shr.
    destruct (fexp 53 1024 (Zdigits2 m0 + e0) - e0) as [| p | p]; cbn [fst];
      rewrite ?shr_m_iter by (rewrite shr_record_of_loc_m; exact H0);
      rewrite shr_record_of_loc_m; try exact H0.
    apply Z.div_pos; [exact H0 | apply Z.pow_pos_nonneg; lia]. }
  assert (H1 := Hsh m e l Hm).
  destruct (shr_fexp 53 1024 m e l) as [mrs1 e1]. cbn [fst] in H1.
  assert (H2 : 0 <= round_nearest_even (shr_m mrs1) (loc_of_shr_record mrs1)).
  { assert (B := round_nearest_even_bounds (shr_m mrs1) (loc_of_shr_record mrs1)). lia. }
  assert (H3 := Hsh _ e1 loc_Exact H2).
  destruct (shr_fexp 53 1024 _ e1 loc_Exact) as [mrs2 e2]. cbn [fst] in H3.
  destruct (shr_m mrs2); try lia; try discriminate.
  destruct (e2 <=? 1024 - 53); discriminate.
Qed.

End Binary64Facts.
Section Binary64Exact.
Local Open Scope Z_scope.

(** Rounding a mantissa that only carries extra zero bits is exact. *)
Lemma binary_round_aux_exact (s : bool) (m M : positive) (e E : Z) :
  canonical_mantissa 53 1024 M E = true ->
  E <= 971 -> e <= E ->
  Zpos m = Zpos M * 2 ^ (E - e) ->
  binary_round_aux 53 1024 s (Zpos m) e loc_Exact = S754_finite s M E.
Proof.
  intros Hc HE He Hm.
  unfold canonical_mantissa in Hc. apply Z.eqb_eq in Hc.
  assert (Hd : Zdigits2 (Zpos m) = Zdigits2 (Zpos M) + (E - e)).
  { rewrite Hm. apply Zdigits2_shift. lia. }
  unfold binary_round_aux, shr_fexp.
  assert (Hf : fexp 53 1024 (Zdigits2 (Zpos m) + e) = E).
  { rewrite Hd.
    replace (Zdigits2 (Zpos M) + (E - e) + e) with (Zpos (digits2_pos M) + E)
      by (cbn [Zdigits2]; lia).
    exact Hc. }
  rewrite Hf.
  assert (Hstep : shr (shr_record_of_loc (Zpos m) loc_Exact) e (E - e)
                  = (Build_shr_record (Zpos M) false false, E)).
  { unfold shr, shr_record_of_loc.
    destruct (E - e) as [| p | p] eqn:Ep; try lia.
    - rewrite Z.pow_0_r, Z.mul_1_r in Hm. rewrite Hm. f_equal. lia.
    - rewrite Hm, Z.mul_comm, shr_exact by lia. f_equal. lia. }
  rewrite Hstep. cbn [shr_m loc_of_shr_record round_nearest_even].
  assert (Hf2 : fexp 53 1024 (Zdigits2 (Zpos M) + E) = E) by exact Hc.
  rewrite Hf2, Z.sub_diag. cbn [shr shr_record_of_loc shr_m].
  assert (Hle : (E <=? 1024 - 53) = true) by (apply Z.leb_le; lia).
  rewrite Hle. reflexivity.
Qed.

(** Multiplying by 1.0 changes nothing. *)
Lemma fmul_one_r (s : bool) (M : positive) (E : Z) :
  canonical_mantissa 53 1024 M E = true -> E <= 971 ->
  fmul (S754_finite s M E) f_one = S754_finite s M E.
Proof.
  intros Hc HE. unfold fmul, f_one. cbn [SFmul].
  rewrite xorb_false_r.
  apply binary_round_aux_exact; try assumption; try lia.
  rewrite Pos2Z.inj_mul. replace (E - (E + -52)) with 52 by lia. reflexivity.
Qed.

Lemma pos_iter_xO (m d : positive) :
  Zpos (Pos.iter xO m d) = Zpos m * 2 ^ Zpos d.
Proof.
  induction d as [| d IH] using Pos.peano_ind.
  - cbn. lia.
  - rewrite Pos.iter_succ, Pos2Z.inj_xO, IH, Pos2Z.inj_succ, Z.pow_succ_r by lia. ring.
Qed.

Lemma binary_round_exact (s : bool) (p M : positive) (E : Z) :
  canonical_mantissa 53 1024 M E = true -> E <= 971 ->
  int_value (Zpos p) M E ->
  binary_round 53 1024 s p 0 = S754_finite s M E.
Proof.
  intros Hc HE Hv. unfold binary_round.
  assert (Hc' := Hc). unfold canonical_mantissa in Hc'. apply Z.eqb_eq in Hc'.
  assert (Hf : fexp 53 1024 (Zpos (digits2_pos p) + 0) = E).
  { rewrite <- Hc'. f_equal. change (Zpos (digits2_pos p)) with (Zdigits2 (Zpos p)).
    change (Zpos (digits2_pos M)) with (Zdigits2 (Zpos M)).
    destruct Hv as [[H0 Hv] | [H0 Hv]].
    - rewrite Hv, Zdigits2_shift by lia. lia.
    - rewrite <- Hv, Zdigits2_shift by lia. lia. }
  rewrite Hf. unfold shl_align.
  destruct Hv as [[H0 Hv] | [H0 Hv]].
  - replace (E - 0) with E by lia.
    destruct E as [| e | e]; try lia.
    + apply binary_round_aux_exact; try assumption; try lia.
    + apply binary_round_aux_exact; try assumption; try lia.
  - destruct E as [| e | e]; try lia. cbn [Z.sub Z.add Z.opp].
    apply binary_round_aux_exact; try assumption; try lia.
    rewrite pos_iter_xO, Z.sub_diag, Z.pow_0_r, Z.mul_1_r.
    cbn [Z.opp] in Hv. exact Hv.
Qed.

(** Converting an integer that is a float gives that float. *)
Lemma float_of_Z_exact (z : Z) (M : positive) (E : Z) :
  canonical_mantissa 53 1024 M E = true -> E <= 971 ->
  int_value (Z.abs z) M E ->
  float_of_Z z = S754_finite (z <? 0) M E.
Proof.
  intros Hc HE Hv. unfold float_of_Z, binary_normalize.
  destruct z as [| p | p].
  - exfalso. change (Z.abs 0) with 0 in Hv.
    destruct Hv as [[H0 H] | [_ H]]; [| lia].
    assert (0 < Zpos M * 2 ^ E)
      by (apply Z.mul_pos_pos; [lia | apply Z.pow_pos_nonneg; lia]).
    lia.
  - apply binary_round_exact; assumption.
  - apply binary_round_exact; assumption.
Qed.

Lemma Zdigits2_abs (z : Z) : Zdigits2 (Z.abs z) = Zdigits2 z.
Proof. destruct z; reflexivity. Qed.

Lemma small_digits (z : Z) :
  z <> 0 -> Z.abs z < 2 ^ 53 -> 0 < Zdigits2 z <= 53.
Proof.
  intros Hz Hlt. rewrite <- Zdigits2_abs.
  destruct (Z.abs z) as [| p | p] eqn:E; try lia.
  split; [apply Zdigits2_pos |].
  destruct (Zdigits2_bounds p) as [Hl _].
  assert (H : 2 ^ (Zdigits2 (Zpos p) - 1) < 2 ^ 53) by lia.
  apply Z.pow_lt_mono_r_iff in H; lia.
Qed.

Lemma small_canonical (z : Z) :
  z <> 0 -> Z.abs z < 2 ^ 53 ->
  canonical_mantissa 53 1024 (small_mantissa z) (small_exponent z) = true /\
  small_exponent z <= 971 /\
  int_value (Z.abs z) (small_mantissa z) (small_exponent z) /\
  Zpos (small_mantissa z) = Z.abs z * 2 ^ (53 - Zdigits2 z).
Proof.
  intros Hz Hlt.
  destruct (small_digits z Hz Hlt) as [Hd0 Hd1].
  assert (Hpos : 0 < Z.abs z * 2 ^ (53 - Zdigits2 z)).
  { apply Z.mul_pos_pos; [lia | apply Z.pow_pos_nonneg; lia]. }
  assert (HM : Zpos (small_mantissa z) = Z.abs z * 2 ^ (53 - Zdigits2 z)).
  { unfold small_mantissa. rewrite Z2Pos.id by exact Hpos. reflexivity. }
  split; [| split; [| split]].
  - unfold canonical_mantissa. apply Z.eqb_eq.
    change (Zpos (digits2_pos (small_mantissa z))) with (Zdigits2 (Zpos (small_mantissa z))).
    rewrite HM.
    destruct (Z.abs z) as [| p | p] eqn:E; try lia.
    rewrite Zdigits2_shift by lia.
    rewrite <- E, Zdigits2_abs. unfold small_exponent, fexp, emin. lia.
  - unfold small_exponent. lia.
  - unfold int_value, small_exponent.
    destruct (Z.eq_dec (Zdigits2 z) 53) as [H53 | H53].
    + left. split; [lia |]. rewrite HM, H53. cbn. lia.
    + right. split; [lia |]. rewrite HM. f_equal. f_equal. lia.
  - exact HM.
Qed.


Lemma float_of_Z_small (z : Z) :
  z <> 0 -> Z.abs z < 2 ^ 53 ->
  float_of_Z z = S754_finite (z <? 0) (small_mantissa z) (small_exponent z).
Proof.
  intros Hz Hlt. destruct (small_canonical z Hz Hlt) as [Hc [HE [Hv _]]].
  apply float_of_Z_exact; assumption.
Qed.

Lemma new_location_zero (m : Z) : new_location m 0 = loc_Exact.
Proof.
  unfold new_location, new_location_even, new_location_odd.
  destruct (Z.even m); reflexivity.
Qed.

(** A quotient that is a float is computed exactly. *)
Lemma fdiv_exact (sx sy : bool) (mx my M : positive) (ex ey E t : Z) :
  canonical_mantissa 53 1024 M E = true -> E <= 971 ->
  t <= ex -> t <= E + ey ->
  Zpos mx * 2 ^ (ex - t) = Zpos M * Zpos my * 2 ^ (E + ey - t) ->
  fdiv (S754_finite sx mx ex) (S754_finite sy my ey)
  = S754_finite (xorb sx sy) M E.
Proof.
  intros Hc HE Ht1 Ht2 H.
  assert (Hc' := Hc). unfold canonical_mantissa in Hc'. apply Z.eqb_eq in Hc'.
  change (Zpos (digits2_pos M)) with (Zdigits2 (Zpos M)) in Hc'.
  unfold fdiv. cbn [SFdiv]. unfold SFdiv_core_binary.
  set (d1 := Zdigits2 (Zpos mx)). set (d2 := Zdigits2 (Zpos my)).
  set (e' := Z.min (fexp 53 1024 (d1 + ex - (d2 + ey))) (ex - ey)).
  assert (Hmag : d1 + ex <= Zdigits2 (Zpos M) + d2 + E + ey).
  { assert (Hl : Zdigits2 (Zpos mx * 2 ^ (ex - t)) = d1 + (ex - t))
      by (apply Zdigits2_shift; lia).
    assert (Hr : Zdigits2 (Zpos (M * my) * 2 ^ (E + ey - t))
                 = Zdigits2 (Zpos (M * my)) + (E + ey - t))
      by (apply Zdigits2_shift; lia).
    rewrite Pos2Z.inj_mul, <- H, Hl in Hr.
    assert (Hm := Zdigits2_mul_le M my). rewrite Pos2Z.inj_mul in Hm.
    fold d2 in Hm. lia. }
  assert (HeE : e' <= E).
  { rewrite <- Hc'. unfold e'.
    etransitivity; [apply Z.le_min_l |]. apply fexp_monotone. lia. }
  assert (Hs : 0 <= ex - ey - e') by (unfold e'; lia).
  assert (Hq : Zpos mx * 2 ^ (ex - ey - e') = Zpos M * 2 ^ (E - e') * Zpos my).
  { destruct (Z_le_gt_dec 0 (ey + e' - t)) as [Hcge | Hclt].
    - apply (Z.mul_cancel_r _ _ (2 ^ (ey + e' - t))).
      { apply Z.pow_nonzero; lia. }
      replace (Zpos mx * 2 ^ (ex - ey - e') * 2 ^ (ey + e' - t))
        with (Zpos mx * 2 ^ (ex - t)).
      2:{ rewrite <- Z.mul_assoc, <- Z.pow_add_r by lia. f_equal. f_equal. lia. }
      replace (Zpos M * 2 ^ (E - e') * Zpos my * 2 ^ (ey + e' - t))
        with (Zpos M * Zpos my * 2 ^ (E + ey - t)).
      2:{ replace (E + ey - t) with ((E - e') + (ey + e' - t)) by lia.
          rewrite Z.pow_add_r by lia. ring. }
      exact H.
    - replace (ex - ey - e') with ((ex - t) + (t - ey - e')) by lia.
      replace (E - e') with ((E + ey - t) + (t - ey - e')) by lia.
      rewrite !Z.pow_add_r by lia.
      rewrite Z.mul_assoc, H. ring. }
  assert (Hm' : match ex - ey - e' with
                | Z0 => Zpos mx
                | Zpos _ => Z.shiftl (Zpos mx) (ex - ey - e')
                | Zneg _ => 0
                end = Zpos M * 2 ^ (E - e') * Zpos my).
  { rewrite <- Hq. destruct (ex - ey - e') as [| p | p] eqn:Es; try lia.
    rewrite Z.shiftl_mul_pow2 by lia. reflexivity. }
  rewrite Hm'.
  assert (Hpos : 0 < Zpos M * 2 ^ (E - e'))
    by (apply Z.mul_pos_pos; [lia | apply Z.pow_pos_nonneg; lia]).
  destruct (Z.div_eucl (Zpos M * 2 ^ (E - e') * Zpos my) (Zpos my)) as [q r] eqn:Hde.
  assert (Hqv : q = Zpos M * 2 ^ (E - e')).
  { change q with (fst (q, r)). rewrite <- Hde.
    change (fst (Z.div_eucl ?a ?b)) with (a / b).
    apply Z.div_mul. lia. }
  assert (Hrv : r = 0).
  { change r with (snd (q, r)). rewrite <- Hde.
    change (snd (Z.div_eucl ?a ?b)) with (a mod b).
    apply Z.mod_mul. lia. }
  subst q r. rewrite new_location_zero.
  destruct (Zpos M * 2 ^ (E - e')) as [| p | p] eqn:Ep; try lia.
  apply binary_round_aux_exact; try assumption.
  symmetry. exact Ep.
Qed.

Lemma small_value (z : Z) :
  z <> 0 -> Z.abs z < 2 ^ 53 ->
  Zpos (small_mantissa z) * 2 ^ (small_exponent z + 53) = Z.abs z * 2 ^ 53.
Proof.
  intros Hz Hlt.
  destruct (small_canonical z Hz Hlt) as [_ [_ [_ HM]]].
  destruct (small_digits z Hz Hlt) as [Hd0 Hd1].
  rewrite HM. unfold small_exponent.
  rewrite <- Z.mul_assoc, <- Z.pow_add_r by lia.
  f_equal. f_equal. lia.
Qed.

(** Dividing two small integers whose quotient is an integer is exact. *)
Lemma fdiv_small (x y k : Z) :
  x = k * y -> k <> 0 -> y <> 0 -> Z.abs x < 2 ^ 53 -> Z.abs y < 2 ^ 53 ->
  fdiv (float_of_Z x) (float_of_Z y) = float_of_Z k.
Proof.
  intros Hx Hk Hy Hxl Hyl.
  assert (Hxn : x <> 0) by (subst x; apply Z.neq_mul_0; split; assumption).
  assert (Hkl : Z.abs k < 2 ^ 53).
  { subst x. rewrite Z.abs_mul in Hxl. nia. }
  rewrite (float_of_Z_small x Hxn Hxl), (float_of_Z_small y Hy Hyl),
    (float_of_Z_small k Hk Hkl).
  destruct (small_canonical k Hk Hkl) as [Hc [HE _]].
  destruct (small_digits x Hxn Hxl), (small_digits y Hy Hyl), (small_digits k Hk Hkl).
  assert (Hsign : xorb (x <? 0) (y <? 0) = (k <? 0)).
  { subst x. destruct (Z.ltb_spec k 0), (Z.ltb_spec y 0), (Z.ltb_spec (k * y) 0);
      try reflexivity; nia. }
  rewrite <- Hsign.
  apply (fdiv_exact _ _ _ _ _ _ _ _ (-106)); try assumption;
    try (unfold small_exponent; lia).
  replace (small_exponent x - -106) with ((small_exponent x + 53) + 53) by lia.
  replace (small_exponent k + small_exponent y - -106)
    with ((small_exponent k + 53) + (small_exponent y + 53)) by lia.
  rewrite !Z.pow_add_r by (unfold small_exponent; lia).
  assert (Vx := small_value x Hxn Hxl).
  assert (Vy := small_value y Hy Hyl).
  assert (Vk := small_value k Hk Hkl).
  transitivity (Z.abs x * 2 ^ 53 * 2 ^ 53); [rewrite <- Vx; ring |].
  transitivity (Z.abs k * 2 ^ 53 * (Z.abs y * 2 ^ 53));
    [subst x; rewrite Z.abs_mul; ring |].
  rewrite <- Vk, <- Vy.
  rewrite (Z.pow_add_r 2 (small_exponent k + 53) (small_exponent y + 53))
    by (unfold small_exponent; lia).
  ring.
Qed.

(** The exact quotient of two integers, when it is an integer and a
    float. *)
Lemma fdiv_raw_exact (k i : Z) (M : positive) (E : Z) :
  canonical_mantissa 53 1024 M E = true -> E <= 971 ->
  int_value (Z.abs k) M E -> i <> 0 ->
  fdiv (raw_float (k * i)) (raw_float i) = S754_finite (k <? 0) M E.
Proof.
  intros Hc HE Hv Hi.
  assert (Hk : k <> 0).
  { intros ->. change (Z.abs 0) with 0 in Hv.
    destruct Hv as [[H0 H] | [_ H]]; [| lia].
    assert (0 < Zpos M * 2 ^ E)
      by (apply Z.mul_pos_pos; [lia | apply Z.pow_pos_nonneg; lia]).
    lia. }
  assert (Hsign : xorb (k * i <? 0) (i <? 0) = (k <? 0)).
  { destruct (Z.ltb_spec k 0), (Z.ltb_spec i 0), (Z.ltb_spec (k * i) 0);
      try reflexivity; nia. }
  assert (Hraw : forall z, z <> 0 ->
            raw_float z = S754_finite (z <? 0) (Z.to_pos (Z.abs z)) 0).
  { intros z Hz. destruct z; [contradiction | reflexivity | reflexivity]. }
  rewrite (Hraw (k * i)) by nia. rewrite (Hraw i Hi). rewrite <- Hsign.
  assert (Hai : Zpos (Z.to_pos (Z.abs i)) = Z.abs i) by (apply Z2Pos.id; lia).
  assert (Hak : Zpos (Z.to_pos (Z.abs (k * i))) = Z.abs k * Z.abs i)
    by (rewrite Z2Pos.id by nia; apply Z.abs_mul).
  destruct Hv as [[H0 Hv] | [H0 Hv]].
  - apply (fdiv_exact _ _ _ _ _ _ _ _ 0); try assumption; try lia.
    rewrite Hai, Hak, Hv. rewrite Z.sub_0_r, Z.pow_0_r, Z.add_0_r, Z.sub_0_r. ring.
  - apply (fdiv_exact _ _ _ _ _ _ _ _ E); try assumption; try lia.
    rewrite Hai, Hak, <- Hv.
    replace (E + 0 - E) with 0 by lia. rewrite Z.pow_0_r.
    replace (0 - E) with (- E) by lia. ring.
Qed.

(** Division always produces a float of the format. *)
Lemma fdiv_valid (x y : spec_float) : valid_binary 53 1024 (fdiv x y) = true.
Proof.
  unfold fdiv.
  destruct x as [sx | sx | | sx mx ex], y as [sy | sy | | sy my ey];
    try reflexivity.
  cbn [SFdiv]. unfold SFdiv_core_binary.
  set (d1 := Zdigits2 (Zpos mx)). set (d2 := Zdigits2 (Zpos my)).
  set (e' := Z.min (fexp 53 1024 (d1 + ex - (d2 + ey))) (ex - ey)).
  assert (Hs : 0 <= ex - ey - e') by (unfold e'; lia).
  set (m' := match ex - ey - e' with
             | Z0 => Zpos mx
             | Zpos _ => Z.shiftl (Zpos mx) (ex - ey - e')
             | Zneg _ => 0
             end).
  assert (Hm' : m' = Zpos mx * 2 ^ (ex - ey - e')).
  { unfold m'. destruct (ex - ey - e') as [| p | p] eqn:Es; try lia.
    rewrite Z.shiftl_mul_pow2 by lia. reflexivity. }
  destruct (Z.div_eucl m' (Zpos my)) as [q r] eqn:Hde.
  assert (Hq : q = m' / Zpos my).
  { change q with (fst (q, r)). rewrite <- Hde. reflexivity. }
  assert (Hp2 : 0 < 2 ^ (ex - ey - e')) by (apply Z.pow_pos_nonneg; lia).
  assert (Hq0 : 0 <= q) by (rewrite Hq; apply Z.div_pos; nia).
  apply binary_round_aux_valid; [exact Hq0 |].
  destruct (Z_le_gt_dec e' (-1074)) as [Hlow | Hhigh].
  - etransitivity; [exact Hlow | apply fexp_ge_emin].
  - (* a normal quotient has at least 53 digits *)
    assert (Hf : fexp 53 1024 (d1 + ex - (d2 + ey)) = d1 + ex - (d2 + ey) - 53).
    { unfold e' in Hhigh. unfold fexp, emin in *. lia. }
    assert (Hsh : 53 - d1 + d2 <= ex - ey - e') by (unfold e'; lia).
    destruct (Zdigits2_bounds mx) as [Hl1 _]. fold d1 in Hl1.
    destruct (Zdigits2_bounds my) as [_ Hu2]. fold d2 in Hu2.
    assert (H0d1 := Zdigits2_pos mx). fold d1 in H0d1.
    assert (H0d2 := Zdigits2_pos my). fold d2 in H0d2.
    assert (Hbig : 2 ^ 52 * Zpos my <= m').
    { rewrite Hm'.
      assert (Hpw : 2 ^ (52 + d2) <= 2 ^ (d1 - 1) * 2 ^ (ex - ey - e')).
      { rewrite <- Z.pow_add_r by lia. apply Z.pow_le_mono_r; lia. }
      assert (Hpd : 2 ^ (52 + d2) = 2 ^ 52 * 2 ^ d2) by (apply Z.pow_add_r; lia).
      assert (0 < 2 ^ d2) by (apply Z.pow_pos_nonneg; lia).
      nia. }
    assert (Hq52 : 2 ^ 52 <= q).
    { rewrite Hq. apply Z.div_le_lower_bound; [lia |]. lia. }
    assert (Hd : 53 <= Zdigits2 q) by (apply (Zdigits2_ge q 52); lia).
    unfold fexp, emin. lia.
Qed.


(** Converting an int never produces a NaN. *)
Lemma float_of_Z_not_nan (z : Z) : float_of_Z z <> S754_nan.
Proof.
  unfold float_of_Z, binary_normalize.
  destruct z as [| p | p]; [discriminate | |];
    unfold binary_round;
    destruct (shl_align p 0 _) as [mz ez];
    apply binary_round_aux_not_nan; lia.
Qed.

End Binary64Exact.
(** ** Rounding to an integer *)

Lemma inject_Z_succ (k : Z) : inject_Z (k + 1) == inject_Z k + 1.
Proof. rewrite inject_Z_plus. reflexivity. Qed.

Lemma floor_bounds (x : Q) :
  inject_Z (Qfloor x) <= x /\ x < inject_Z (Qfloor x) + 1.
Proof.
  split.
  - apply Qfloor_le.
  - rewrite <- inject_Z_succ. apply Qlt_floor.
Qed.

Lemma py_round_spec (x : Q) : round_half_even x (py_round x).
Proof.
  unfold round_half_even, py_round.
  destruct (floor_bounds x) as [Hlo Hhi].
  destruct (Qcompare_spec (x - inject_Z (Qfloor x)) (1 # 2)) as [He | Hl | Hg].
  - destruct (Z.even (Qfloor x)) eqn:Hev.
    + right. split; [| exact Hev].
      rewrite Qabs_pos by lra. exact He.
    + right. split.
      * rewrite inject_Z_succ. rewrite Qabs_neg by lra. lra.
      * rewrite Z.even_add, Hev. reflexivity.
  - left. apply Qabs_Qlt_condition. split; lra.
  - left. rewrite inject_Z_succ. apply Qabs_Qlt_condition. split; lra.
Qed.

Lemma round_half_even_near (x : Q) (k : Z) :
  round_half_even x k -> Qabs (x - inject_Z k) <= 1 # 2.
Proof.
  intros [H | [H _]].
  - apply Qlt_le_weak. exact H.
  - rewrite H. apply Qle_refl.
Qed.

Lemma inject_Z_lt_inv (a b : Z) : inject_Z a < inject_Z b + 1 -> (a <= b)%Z.
Proof.
  intros H. rewrite <- inject_Z_succ in H.
  rewrite <- Zlt_Qlt in H. lia.
Qed.

(** At most one integer is the half-even rounding of [x]. *)
Lemma round_half_even_unique (x : Q) (k1 k2 : Z) :
  round_half_even x k1 -> round_half_even x k2 -> k1 = k2.
Proof.
  intros H1 H2.
  assert (Hord : forall a b : Z,
             round_half_even x a -> round_half_even x b -> (a < b)%Z -> False).
  { intros a b Ha Hb Hab.
    assert (Hb1 : (b <= a + 1)%Z).
    { apply round_half_even_near in Ha, Hb.
      apply Qabs_Qle_condition in Ha, Hb.
      apply inject_Z_lt_inv. rewrite inject_Z_succ. lra. }
    assert (Hb2 : b = (a + 1)%Z) by lia. subst b.
    destruct Ha as [Ha | [Ha Hea]], Hb as [Hb | [Hb Heb]].
    - apply Qabs_Qlt_condition in Ha, Hb.
      rewrite inject_Z_succ in Hb. lra.
    - apply Qabs_Qlt_condition in Ha.
      assert (Hb' := Qabs_Qle_condition (x - inject_Z (a + 1)) (1 # 2)).
      rewrite inject_Z_succ in Hb, Hb'.
      destruct (Qlt_le_dec (x - (inject_Z a + 1)) 0) as [Hn | Hp].
      + rewrite Qabs_neg in Hb by lra. lra.
      + rewrite Qabs_pos in Hb by lra. lra.
    - apply Qabs_Qlt_condition in Hb. rewrite inject_Z_succ in Hb.
      destruct (Qlt_le_dec (x - inject_Z a) 0) as [Hn | Hp].
      + rewrite Qabs_neg in Ha by lra. lra.
      + rewrite Qabs_pos in Ha by lra. lra.
    - rewrite Z.even_add, Hea in Heb. discriminate. }
  destruct (Z.lt_trichotomy k1 k2) as [Hlt | [Heq | Hgt]].
  - exfalso. exact (Hord k1 k2 H1 H2 Hlt).
  - exact Heq.
  - exfalso. exact (Hord k2 k1 H2 H1 Hgt).
Qed.

Lemma round_half_even_comp (x y : Q) (k : Z) :
  x == y -> round_half_even x k -> round_half_even y k.
Proof.
  unfold round_half_even. intros Hxy H. rewrite <- Hxy. exact H.
Qed.

Lemma py_round_comp (x y : Q) : x == y -> py_round x = py_round y.
Proof.
  intros Hxy.
  apply (round_half_even_unique y).
  - apply (round_half_even_comp x y); [exact Hxy | apply py_round_spec].
  - apply py_round_spec.
Qed.

(** An integer rounds to itself. *)
Lemma py_round_inject_Z (k : Z) : py_round (inject_Z k) = k.
Proof.
  apply (round_half_even_unique (inject_Z k)).
  - apply py_round_spec.
  - left. setoid_replace (inject_Z k - inject_Z k) with 0 by ring.
    reflexivity.
Qed.


(** ** The exact value of a float *)

Lemma SF2Q_nonneg_exponent (s : bool) (m : positive) (e : Z) :
  (0 <= e)%Z ->
  SF2Q (S754_finite s m e) == inject_Z (cond_Zopp s (Zpos m) * 2 ^ e).
Proof.
  intros He. cbn [SF2Q]. rewrite inject_Z_mult.
  destruct e as [| p | p]; [| | lia].
  - cbn [pow2]. change (2 ^ 0)%Z with 1%Z. reflexivity.
  - cbn [pow2]. reflexivity.
Qed.

Lemma SF2Q_neg_exponent (s : bool) (m : positive) (p : positive) :
  SF2Q (S754_finite s m (Zneg p)) == cond_Zopp s (Zpos m) # (2 ^ p).
Proof.
  cbn [SF2Q pow2]. unfold Qeq, inject_Z, Qmult. cbn [Qnum Qden].
  rewrite !Z.mul_1_r, Pos.mul_1_l. reflexivity.
Qed.

Lemma pow_pos_Z (p : positive) : Zpos (2 ^ p) = (2 ^ Zpos p)%Z.
Proof. apply Pos2Z.inj_pow. Qed.

(** The value of the float of an integer is that integer. *)
Lemma SF2Q_int_value (k : Z) (M : positive) (E : Z) :
  int_value (Z.abs k) M E ->
  SF2Q (S754_finite (k <? 0)%Z M E) == inject_Z k.
Proof.
  intros [[H0 Hv] | [H0 Hv]].
  - rewrite SF2Q_nonneg_exponent by exact H0.
    assert (Hk : (cond_Zopp (k <? 0) (Zpos M) * 2 ^ E)%Z = k).
    { destruct (Z.ltb_spec k 0); cbn [cond_Zopp]; lia. }
    rewrite Hk. reflexivity.
  - destruct E as [| p | p]; try lia.
    rewrite SF2Q_neg_exponent. unfold Qeq, inject_Z. cbn [Qnum Qden].
    rewrite pow_pos_Z. cbn [Z.opp] in Hv.
    destruct (Z.ltb_spec k 0); cbn [cond_Zopp]; lia.
Qed.

Section Binary64More.
Local Open Scope Z_scope.



(** Rounding a mantissa with 53 significant bits or more does not give
    a zero. *)
Lemma binary_round_aux_nonzero (s : bool) (p : positive) (e : Z) (l : location) :
  53 <= Zdigits2 (Zpos p) -> -1074 <= e ->
  is_zero (binary_round_aux 53 1024 s (Zpos p) e l) = false.
Proof.
  intros Hd He.
  assert (Hf : fexp 53 1024 (Zdigits2 (Zpos p) + e) = Zdigits2 (Zpos p) + e - 53)
    by (unfold fexp, emin; lia).
  assert (Hpre : e <= fexp 53 1024 (Zdigits2 (Zpos p) + e)) by lia.
  destruct (shr_fexp_spec (Zpos p) e l ltac:(lia) Hpre) as [He1 Hm1].
  unfold binary_round_aux.
  destruct (shr_fexp 53 1024 (Zpos p) e l) as [mrs1 e1]. cbn [fst snd] in He1, Hm1.
  rewrite Hf in He1, Hm1.
  replace (Zdigits2 (Zpos p) + e - 53 - e) with (Zdigits2 (Zpos p) - 53) in Hm1 by lia.
  set (n1 := Zdigits2 (Zpos p) - 53) in *.
  assert (Hp1 : 0 < 2 ^ n1) by (apply Z.pow_pos_nonneg; lia).
  destruct (Zdigits2_bounds p) as [Hl Hu].
  assert (Hlo : 2 ^ 52 <= shr_m mrs1).
  { rewrite Hm1. apply Z.div_le_lower_bound; [lia |].
    rewrite <- Z.pow_add_r by lia.
    replace (n1 + 52) with (Zdigits2 (Zpos p) - 1) by lia. exact Hl. }
  assert (Hhi : shr_m mrs1 < 2 ^ 53).
  { rewrite Hm1. apply Z.div_lt_upper_bound; [lia |].
    rewrite <- Z.pow_add_r by lia.
    replace (n1 + 53) with (Zdigits2 (Zpos p)) by lia. exact Hu. }
  set (m2 := round_nearest_even (shr_m mrs1) (loc_of_shr_record mrs1)).
  assert (Hm2 : shr_m mrs1 <= m2 <= shr_m mrs1 + 1) by apply round_nearest_even_bounds.
  assert (Hd2 : 53 <= Zdigits2 m2 <= 54).
  { split; [apply (Zdigits2_ge m2 52); lia |].
    destruct m2 as [| p2 | p2]; try lia.
    destruct (Zdigits2_bounds p2) as [Hl2 _].
    assert (H : 2 ^ (Zdigits2 (Zpos p2) - 1) < 2 ^ 54) by lia.
    apply Z.pow_lt_mono_r_iff in H; lia. }
  assert (He2 : e1 <= fexp 53 1024 (Zdigits2 m2 + e1)) by (unfold fexp, emin; lia).
  destruct (shr_fexp_spec m2 e1 loc_Exact ltac:(lia) He2) as [He3 Hm3].
  destruct (shr_fexp 53 1024 m2 e1 loc_Exact) as [mrs2 e2]. cbn [fst snd] in He3, Hm3.
  assert (Hn2 : 0 <= fexp 53 1024 (Zdigits2 m2 + e1) - e1 <= 1)
    by (unfold fexp, emin; lia).
  assert (Hpos : 0 < shr_m mrs2).
  { rewrite Hm3.
    assert (Hq : 2 ^ 51 <= m2 / 2 ^ (fexp 53 1024 (Zdigits2 m2 + e1) - e1)).
    { apply Z.div_le_lower_bound; [apply Z.pow_pos_nonneg; lia |].
      assert (H : 2 ^ (fexp 53 1024 (Zdigits2 m2 + e1) - e1) <= 2 ^ 1)
        by (apply Z.pow_le_mono_r; lia).
      change (2 ^ 1) with 2 in H.
      assert (0 < 2 ^ (fexp 53 1024 (Zdigits2 m2 + e1) - e1))
        by (apply Z.pow_pos_nonneg; lia).
      nia. }
    lia. }
  destruct (shr_m mrs2); try lia.
  destruct (e2 <=? 1024 - 53); reflexivity.
Qed.

(** Only the int 0 converts to a zero. *)
Lemma float_of_Z_zero (z : Z) : is_zero (float_of_Z z) = true -> z = 0.
Proof.
  intros H. destruct (Z.eq_dec z 0) as [| Hz]; [assumption | exfalso].
  destruct (Z_lt_ge_dec (Z.abs z) (2 ^ 53)) as [Hs | Hb].
  - rewrite (float_of_Z_small z Hz Hs) in H. discriminate.
  - assert (Hround : forall s p, 2 ^ 53 <= Zpos p ->
              is_zero (binary_round 53 1024 s p 0) = false).
    { intros s p Hp. unfold binary_round.
      assert (Hd : 54 <= Zdigits2 (Zpos p)) by (apply (Zdigits2_ge _ 53); lia).
      change (Zpos (digits2_pos p)) with (Zdigits2 (Zpos p)).
      unfold shl_align.
      assert (Hf : fexp 53 1024 (Zdigits2 (Zpos p) + 0) = Zdigits2 (Zpos p) - 53)
        by (unfold fexp, emin; lia).
      rewrite Hf.
      destruct (Zdigits2 (Zpos p) - 53 - 0) as [| q | q] eqn:Eq; try lia;
        apply binary_round_aux_nonzero; lia. }
    unfold float_of_Z, binary_normalize in H.
    destruct z as [| p | p]; [lia | |];
      rewrite Hround in H by lia; discriminate.
Qed.

End Binary64More.
(** ** Python numbers *)

Arguments fadd : simpl never.
Arguments fsub : simpl never.
Arguments fmul : simpl never.
Arguments fdiv : simpl never.
Arguments float_of_Z : simpl never.
Arguments py_round : simpl never.
Arguments SF2Q : simpl never.
Arguments decimal : simpl never.

Lemma to_float_small (z : Z) :
  (Z.abs z < 2 ^ 53)%Z -> to_float (PInt z) = Ok (float_of_Z z).
Proof.
  intros Hz. unfold to_float.
  destruct (Z.eq_dec z 0) as [-> | Hn]; [reflexivity |].
  rewrite (float_of_Z_small z Hn Hz). reflexivity.
Qed.

(** A conversion gives a float that is no NaN, and for an int no
    infinity either. *)
Lemma to_float_int (z : Z) (f : spec_float) :
  to_float (PInt z) = Ok f -> f = float_of_Z z /\ is_infinity f = false /\ f <> S754_nan.
Proof.
  unfold to_float. destruct (is_infinity (float_of_Z z)) eqn:E; [discriminate |].
  intros H. injection H as <-. repeat split; [exact E | apply float_of_Z_not_nan].
Qed.

Lemma to_float_raises (x : num) (e : exn) : to_float x = Raise e -> e = OverflowError.
Proof.
  destruct x as [z | f]; unfold to_float; [| discriminate].
  destruct (is_infinity (float_of_Z z)); [| discriminate].
  intros H. injection H as <-. reflexivity.
Qed.

(** Arithmetic raises nothing but [OverflowError]. *)
Lemma float_binop_raises (op : spec_float -> spec_float -> spec_float)
    (x y : num) (e : exn) :
  float_binop op x y = Raise e -> e = OverflowError.
Proof.
  unfold float_binop.
  destruct (to_float x) as [a | e1] eqn:Ex; cbn [rbind].
  - destruct (to_float y) as [b | e2] eqn:Ey; cbn [rbind]; [discriminate |].
    intros H. injection H as <-. exact (to_float_raises _ _ Ey).
  - intros H. injection H as <-. exact (to_float_raises _ _ Ex).
Qed.

Lemma py_add_raises (x y : num) (e : exn) : py_add x y = Raise e -> e = OverflowError.
Proof.
  destruct x, y; cbn [py_add]; try discriminate; apply float_binop_raises.
Qed.

Lemma py_sub_raises (x y : num) (e : exn) : py_sub x y = Raise e -> e = OverflowError.
Proof.
  destruct x, y; cbn [py_sub]; try discriminate; apply float_binop_raises.
Qed.

Lemma py_mul_raises (x y : num) (e : exn) : py_mul x y = Raise e -> e = OverflowError.
Proof.
  destruct x, y; cbn [py_mul]; try discriminate; apply float_binop_raises.
Qed.

(** A product with a float is a float. *)
Lemma py_mul_float_r (x : num) (g : spec_float) (r : num) :
  py_mul x (PFloat g) = Ok r -> exists f, r = PFloat f.
Proof.
  destruct x; cbn [py_mul]; unfold float_binop;
    destruct (to_float _) as [a |]; cbn [rbind to_float]; try discriminate;
    intros H; injection H as <-; eexists; reflexivity.
Qed.

(** [x == 0] holds of the int 0 and of the two float zeros only. *)
Lemma py_eq_zero (x : num) : py_eq x (PInt 0) = true <-> is_zero_number x.
Proof.
  split.
  - unfold py_eq, py_compare. destruct x as [z | f].
    + destruct (Z.compare_spec z 0); try discriminate. intros _. left. congruence.
    + destruct f as [s | s | | s m e]; cbn [cmp_Z_float option_map].
      * intros _. right. exists s. reflexivity.
      * destruct s; discriminate.
      * discriminate.
      * intros H. exfalso.
        assert (Hm : (cond_Zopp s (Zpos m) <> 0)%Z) by (destruct s; cbn; lia).
        destruct e as [| p | p].
        -- rewrite Z.pow_0_r, Z.mul_1_r in H.
           destruct (Z.compare_spec 0 (cond_Zopp s (Zpos m))); try discriminate; lia.
        -- assert (0 < 2 ^ Zpos p)%Z by (apply Z.pow_pos_nonneg; lia).
           destruct (Z.compare_spec 0 (cond_Zopp s (Zpos m) * 2 ^ Zpos p)%Z);
             try discriminate; nia.
        -- rewrite Z.mul_0_l in H.
           destruct (Z.compare_spec 0 (cond_Zopp s (Zpos m))); try discriminate; lia.
  - intros [-> | [s ->]]; reflexivity.
Qed.

(** Division raises [ZeroDivisionError] on a zero divisor only, and then
    unless the dividend is an int too large for a float. *)
Lemma py_truediv_zero_division (x y : num) :
  py_truediv x y = Raise ZeroDivisionError -> is_zero_number y.
Proof.
  destruct x as [a | f], y as [b | g]; cbn [py_truediv].
  - unfold int_truediv. destruct (Z.eqb_spec b 0) as [-> | Hb].
    + intros _. left. reflexivity.
    + cbn [rbind]. destruct (is_infinity _); discriminate.
  - change (to_float (PFloat g)) with (Ok g).
    destruct (to_float (PInt a)) as [a' | e] eqn:Ea; cbn [rbind];
      [| rewrite (to_float_raises _ _ Ea); discriminate].
    destruct g; cbn [is_zero]; try discriminate. intros _. right. eexists. reflexivity.
  - change (to_float (PFloat f)) with (Ok f). cbn [rbind].
    destruct (to_float (PInt b)) as [b' | e] eqn:Eb; cbn [rbind];
      [| rewrite (to_float_raises _ _ Eb); discriminate].
    destruct (is_zero b') eqn:Ez; [| discriminate].
    intros _. left.
    destruct (to_float_int b b' Eb) as [-> _].
    f_equal. apply float_of_Z_zero. exact Ez.
  - cbn [to_float rbind].
    destruct g; cbn [is_zero]; try discriminate. intros _. right. eexists. reflexivity.
Qed.

Lemma py_truediv_by_zero (x y : num) :
  is_zero_number y ->
  py_truediv x y = Raise ZeroDivisionError \/
  ((exists a, x = PInt a) /\ py_truediv x y = Raise OverflowError).
Proof.
  intros [-> | [s ->]]; destruct x as [a | f]; cbn [py_truediv].
  - left. reflexivity.
  - left. reflexivity.
  - change (to_float (PFloat (S754_zero s))) with (Ok (S754_zero s)).
    destruct (to_float (PInt a)) as [a' | e] eqn:Ea; cbn [rbind is_zero].
    + left. reflexivity.
    + right. rewrite (to_float_raises _ _ Ea). split; [eexists |]; reflexivity.
  - left. reflexivity.
Qed.

(** A quotient is a float of the format. *)
Lemma py_truediv_valid (x y r : num) :
  py_truediv x y = Ok r ->
  exists q, r = PFloat q /\ valid_binary 53 1024 q = true.
Proof.
  assert (Hint : forall a b q, int_truediv a b = Ok q -> valid_binary 53 1024 q = true).
  { intros a b q. unfold int_truediv.
    destruct (b =? 0)%Z; [discriminate |].
    destruct a as [| p | p].
    - cbn [is_infinity]. intros H. injection H as <-. reflexivity.
    - destruct (is_infinity _); [discriminate |].
      intros H. injection H as <-. apply fdiv_valid.
    - destruct (is_infinity _); [discriminate |].
      intros H. injection H as <-. apply fdiv_valid. }
  assert (Hfl : forall r,
            (let* a := to_float x in
             let* b := to_float y in
             if is_zero b then Raise ZeroDivisionError else Ok (PFloat (fdiv a b))) = Ok r ->
            exists q, r = PFloat q /\ valid_binary 53 1024 q = true).
  { intros r0.
    destruct (to_float x) as [a |]; cbn [rbind]; [| discriminate].
    destruct (to_float y) as [b |]; cbn [rbind]; [| discriminate].
    destruct (is_zero b); [discriminate |].
    intros H. injection H as <-. eexists. split; [reflexivity | apply fdiv_valid]. }
  destruct x as [a | f], y as [b | g]; cbn [py_truediv]; try apply Hfl.
  destruct (int_truediv a b) as [q |] eqn:E; cbn [rbind]; [| discriminate].
  intros H. injection H as <-. exists q. split; [reflexivity | exact (Hint _ _ _ E)].
Qed.

(** ** [round] *)

Lemma decimal_nonzero (k : Z) (n : nat) :
  k <> 0%Z -> decimal k n = fdiv (raw_float k) (raw_float (10 ^ Z.of_nat n)).
Proof. intros Hk. unfold decimal. destruct k; [contradiction | |]; reflexivity. Qed.

(** [round(x, ndigits)], when it returns, returns [x] rounded to
    [ndigits] decimals; it raises nothing but [OverflowError]. *)
Lemma py_round_ndigits_spec (b r : num) (ndigits : nat) :
  py_round_ndigits b ndigits = Ok r -> rounded_to ndigits b r.
Proof.
  destruct b as [z | [s | s | | s m e]]; cbn [py_round_ndigits rounded_to];
    try (intros H; injection H as <-; reflexivity).
  set (k := py_round (SF2Q (S754_finite s m e) * inject_Z (10 ^ Z.of_nat ndigits))).
  intros H. exists k. split; [apply py_round_spec |].
  destruct k as [| p | p] eqn:Ek.
  - cbn [is_infinity] in H. injection H as <-. reflexivity.
  - rewrite decimal_nonzero by lia.
    destruct (is_infinity _); [discriminate |]. injection H as <-. reflexivity.
  - rewrite decimal_nonzero by lia.
    destruct (is_infinity _); [discriminate |]. injection H as <-. reflexivity.
Qed.

Lemma py_round_ndigits_raises (b : num) (ndigits : nat) (e : exn) :
  py_round_ndigits b ndigits = Raise e -> e = OverflowError.
Proof.
  destruct b as [z | [s | s | | s m e']]; cbn [py_round_ndigits]; try discriminate.
  destruct (is_infinity _); [| discriminate].
  intros H. injection H as <-. reflexivity.
Qed.

(** ** [calculate_percentile] *)

Lemma py_eq_int (a b : Z) : py_eq (PInt a) (PInt b) = (a =? b)%Z.
Proof.
  unfold py_eq, py_compare.
  destruct (Z.compare_spec a b), (Z.eqb_spec a b); try reflexivity; lia.
Qed.





(** ** [find_nearest_strike] *)


Lemma py_round_int_finite (q : spec_float) :
  is_finite q = true -> py_round_int (PFloat q) = Ok (PInt (py_round (SF2Q q))).
Proof. destruct q; try discriminate; reflexivity. Qed.

(** With an int interval the strike is an int: the rounded quotient
    times the interval, computed exactly. *)
Lemma find_nearest_strike_int_ok (price : num) (i : Z) (q : spec_float) :
  py_truediv price (PInt i) = Ok (PFloat q) -> is_finite q = true ->
  find_nearest_strike price (PInt i) = Ok (PInt (py_round (SF2Q q) * i)).
Proof.
  intros Hq Hf. unfold find_nearest_strike. rewrite Hq. cbn [rbind].
  rewrite (py_round_int_finite q Hf). reflexivity.
Qed.

Lemma find_nearest_strike_int_inv (price : num) (i : Z) (s : num) :
  find_nearest_strike price (PInt i) = Ok s ->
  exists q,
    py_truediv price (PInt i) = Ok (PFloat q) /\ is_finite q = true /\
    valid_binary 53 1024 q = true /\ s = PInt (py_round (SF2Q q) * i).
Proof.
  unfold find_nearest_strike.
  destruct (py_truediv price (PInt i)) as [r | e] eqn:E; cbn [rbind]; [| discriminate].
  destruct (py_truediv_valid _ _ _ E) as [q [-> Hv]].
  destruct q as [s0 | s0 | | s0 m e]; cbn [py_round_int rbind py_mul];
    try discriminate; intros H; injection H as <-;
    eexists; repeat split; assumption.
Qed.




Lemma find_nearest_strike_raises_zero_division (price interval : num) :
  find_nearest_strike price interval = Raise ZeroDivisionError ->
  py_truediv price interval = Raise ZeroDivisionError.
Proof.
  unfold find_nearest_strike.
  destruct (py_truediv price interval) as [q | e] eqn:E; cbn [rbind].
  - destruct (py_round_int q) as [k | e] eqn:Ek; cbn [rbind].
    + intros H. apply py_mul_raises in H. discriminate.
    + destruct q as [z | [s | s | | s m e']]; cbn [py_round_int] in Ek;
        try discriminate; injection Ek as <-; discriminate.
  - intros H. exact H.
Qed.

Lemma find_nearest_strike_inv (price interval s : num) :
  find_nearest_strike price interval = Ok s ->
  exists q,
    py_truediv price interval = Ok (PFloat q) /\ is_finite q = true /\
    py_mul (PInt (py_round (SF2Q q))) interval = Ok s.
Proof.
  unfold find_nearest_strike.
  destruct (py_truediv price interval) as [r | e] eqn:E; cbn [rbind]; [| discriminate].
  destruct (py_truediv_valid _ _ _ E) as [q [-> _]].
  destruct q as [s0 | s0 | | s0 m e]; cbn [py_round_int rbind];
    try discriminate; intros H; eexists; repeat split; exact H.
Qed.

Lemma positive_not_zero (x : num) : py_gt x (PInt 0) = true -> ~ is_zero_number x.
Proof.
  intros Hgt Hz. apply py_eq_zero in Hz. unfold py_gt, py_eq in *.
  destruct (py_compare x (PInt 0)) as [[| |] |]; discriminate.
Qed.

(** C3, amended: for every price and every positive interval,
    [find_nearest_strike] returns the interval times the quotient [price /
    interval], as Python computes it in binary64, rounded half to even.
    It returns whenever the quotient is finite, and never divides by zero.
    With an int interval the product is exact and the result is an exact
    multiple of the interval; with a float interval the product is
    rounded. *)
Theorem C3_find_nearest_strike_half_even (price interval : num) :
  py_gt interval (PInt 0) = true ->
  (forall q, py_truediv price interval = Ok (PFloat q) -> is_finite q = true ->
     exists k, round_half_even (SF2Q q) k /\
               find_nearest_strike price interval = py_mul (PInt k) interval) /\
  (forall s, find_nearest_strike price interval = Ok s ->
     exists q k, py_truediv price interval = Ok (PFloat q) /\
                 round_half_even (SF2Q q) k /\
                 py_mul (PInt k) interval = Ok s /\
                 (forall i, interval = PInt i -> s = PInt (k * i))) /\
  find_nearest_strike price interval <> Raise ZeroDivisionError.
Proof.
  intros Hpos. split; [| split].
  - intros q Hq Hf. exists (py_round (SF2Q q)).
    split; [apply py_round_spec |].
    unfold find_nearest_strike. rewrite Hq. cbn [rbind].
    rewrite (py_round_int_finite q Hf). reflexivity.
  - intros s Hs.
    destruct (find_nearest_strike_inv _ _ _ Hs) as [q [Hq [_ Hmul]]].
    exists q, (py_round (SF2Q q)).
    split; [exact Hq |]. split; [apply py_round_spec |]. split; [exact Hmul |].
    intros i ->. cbn [py_mul] in Hmul. injection Hmul as <-. reflexivity.
  - intros H. apply find_nearest_strike_raises_zero_division in H.
    apply py_truediv_zero_division in H.
    exact (positive_not_zero interval Hpos H).
Qed.

Lemma C3_find_nearest_strike_half_even_witness :
  (forall q, py_truediv (PInt 16575) (PInt 50) = Ok (PFloat q) -> is_finite q = true ->
     exists k, round_half_even (SF2Q q) k /\
               find_nearest_strike (PInt 16575) (PInt 50) = py_mul (PInt k) (PInt 50)) /\
  (forall s, find_nearest_strike (PInt 16575) (PInt 50) = Ok s ->
     exists q k, py_truediv (PInt 16575) (PInt 50) = Ok (PFloat q) /\
                 round_half_even (SF2Q q) k /\
                 py_mul (PInt k) (PInt 50) = Ok s /\
                 (forall i, PInt 50 = PInt i -> s = PInt (k * i))) /\
  find_nearest_strike (PInt 16575) (PInt 50) <> Raise ZeroDivisionError.
Proof.
  apply (C3_find_nearest_strike_half_even (PInt 16575) (PInt 50)). reflexivity.
Defined.

(** With a float interval the product is rounded and the result need not
    be a multiple of the interval: the strike nearest to 0.3 for the
    interval 0.1 is 0.30000000000000004, which is not an integer times
    the float 0.1.  And the quotient that is rounded is the binary64 one:
    for 1.5000000000000002 and the interval 1.0000000000000002 the exact
    quotient is below 1.5 and rounds to 1, the binary64 quotient is 1.5
    and rounds to 2. *)
Lemma C3_float_interval_counterexample :
  (exists r,
     find_nearest_strike (PFloat (decimal 3 1)) (PFloat (decimal 1 1)) = Ok (PFloat r) /\
     ~ exists k : Z, SF2Q r == inject_Z k * SF2Q (decimal 1 1)) /\
  (let price := S754_finite false 6755399441055745 (-52) in
   let interval := S754_finite false 4503599627370497 (-52) in
   round_half_even (SF2Q price / SF2Q interval) 1 /\
   find_nearest_strike (PFloat price) (PFloat interval)
   = Ok (PFloat (fmul (float_of_Z 2) interval))).
Proof.
  split.
  - eexists. split; [vm_compute; reflexivity |].
    intros [k H].
    repeat match type of H with
           | context [SF2Q ?f] =>
               let v := eval vm_compute in (SF2Q f) in change (SF2Q f) with v in H
           end.
    unfold Qeq in H. cbn [Qmult inject_Z Qnum Qden] in H. lia.
  - cbv zeta. split; [| vm_compute; reflexivity].
    left. vm_compute. reflexivity.
Qed.




(** ** [calculate_strike_with_margin] *)

Lemma zero_margin_fraction (margin : num) :
  is_zero_number margin ->
  exists sg, py_truediv margin (PInt 100) = Ok (PFloat (S754_zero sg)).
Proof.
  intros [-> | [sg ->]].
  - exists false. reflexivity.
  - exists sg. destruct sg; reflexivity.
Qed.

Lemma one_minus_zero (sg : bool) :
  py_sub (PInt 1) (PFloat (S754_zero sg)) = Ok (PFloat f_one).
Proof. destruct sg; reflexivity. Qed.

Lemma one_plus_zero (sg : bool) :
  py_add (PInt 1) (PFloat (S754_zero sg)) = Ok (PFloat f_one).
Proof. destruct sg; reflexivity. Qed.

(** The float of a small int is that int. *)
Lemma py_round_float_of_Z (k : Z) :
  k <> 0%Z -> (Z.abs k < 2 ^ 53)%Z ->
  py_round_int (PFloat (float_of_Z k)) = Ok (PInt k).
Proof.
  intros Hk Hs. rewrite (float_of_Z_small k Hk Hs). cbn [py_round_int].
  destruct (small_canonical k Hk Hs) as [_ [_ [Hv _]]].
  rewrite (py_round_comp _ _ (SF2Q_int_value k _ _ Hv)), py_round_inject_Z.
  reflexivity.
Qed.

(** Multiplying a strike below 2^53 by 1.0 and taking the nearest strike
    again gives the strike back. *)
Lemma nearest_strike_of_unscaled (s k : Z) :
  s = (k * 50)%Z -> (Z.abs s < 2 ^ 53)%Z ->
  (let* target_price := py_mul (PInt s) (PFloat f_one) in
   find_nearest_strike target_price default_strike_interval) = Ok (PInt s).
Proof.
  intros Hs Hlt. cbn [py_mul]. unfold float_binop.
  rewrite (to_float_small s Hlt). change (to_float (PFloat f_one)) with (Ok f_one).
  cbn [rbind].
  destruct (Z.eq_dec s 0) as [Hz | Hn].
  - rewrite Hz. reflexivity.
  - assert (Hk : k <> 0%Z) by lia.
    assert (Hkl : (Z.abs k < 2 ^ 53)%Z) by lia.
    destruct (small_canonical s Hn Hlt) as [Hc [HE _]].
    rewrite (float_of_Z_small s Hn Hlt), (fmul_one_r _ _ _ Hc HE).
    rewrite <- (float_of_Z_small s Hn Hlt).
    unfold find_nearest_strike, default_strike_interval. cbn [py_truediv].
    change (to_float (PFloat (float_of_Z s))) with (Ok (float_of_Z s)).
    rewrite (to_float_small 50) by (cbn; lia). cbn [rbind].
    assert (H50 : is_zero (float_of_Z 50) = false) by reflexivity.
    rewrite H50.
    rewrite (fdiv_small s 50 k Hs Hk) by (cbn; lia).
    cbn [rbind]. rewrite (py_round_float_of_Z k Hk Hkl). cbn [rbind py_mul].
    rewrite Hs. reflexivity.
Qed.

(** C4, amended: with a zero margin (the int 0 or a float zero)
    [calculate_strike_with_margin] returns the nearest strike of the spot
    price, for calls and puts, whenever that strike is below 2^53 in
    magnitude, where every int is a float. *)
Theorem C4_zero_margin_no_adjustment
    (spot margin : num) (is_call : bool) (s : Z) :
  py_eq margin (PInt 0) = true ->
  find_nearest_strike spot default_strike_interval = Ok (PInt s) ->
  (Z.abs s < 2 ^ 53)%Z ->
  calculate_strike_with_margin spot margin is_call = Ok (PInt s).
Proof.
  intros Hm Hs Hlt. apply py_eq_zero in Hm.
  destruct (zero_margin_fraction margin Hm) as [sg Hfrac].
  assert (Hk : exists k, s = (k * 50)%Z).
  { destruct (find_nearest_strike_int_inv _ _ _ Hs) as [q [_ [_ [_ E]]]].
    injection E as ->. eexists. reflexivity. }
  destruct Hk as [k Hk].
  unfold calculate_strike_with_margin. rewrite Hs. cbn [rbind].
  destruct is_call; rewrite Hfrac; cbn [rbind];
    rewrite ?one_minus_zero, ?one_plus_zero; cbn [rbind];
    exact (nearest_strike_of_unscaled s k Hk Hlt).
Qed.

Lemma C4_zero_margin_no_adjustment_witness :
  calculate_strike_with_margin (PInt 19500) (PInt 0) false = Ok (PInt 19500).
Proof.
  apply (C4_zero_margin_no_adjustment (PInt 19500) (PInt 0) false 19500).
  - reflexivity.
  - vm_compute. reflexivity.
  - vm_compute. reflexivity.
Defined.

(** Beyond 2^53 the multiplication by 1.0 rounds the strike: for the spot
    price 3264591589524027780 the nearest strike is 3264591589524027600
    and the strike at margin 0 is 3264591589524027200. *)
Lemma C4_large_spot_counterexample :
  find_nearest_strike (PInt 3264591589524027780) default_strike_interval
  = Ok (PInt 3264591589524027600) /\
  calculate_strike_with_margin (PInt 3264591589524027780) (PInt 0) true
  = Ok (PInt 3264591589524027200) /\
  calculate_strike_with_margin (PInt 3264591589524027780) (PInt 0) false
  = Ok (PInt 3264591589524027200).
Proof. repeat split; vm_compute; reflexivity. Qed.

(** ** [generate_option_premium] *)

(** C5, amended: for a call the premium is [(spot - strike) + spot * 0.02]
    when [spot > strike] and [spot * 0.01] otherwise, for a put it is
    [(strike - spot) + spot * 0.02] when [spot < strike] and [spot * 0.01]
    otherwise; each expression is evaluated in binary64 and its value,
    not the exact one, is rounded to 2 decimals.  Nothing but
    [OverflowError] is raised. *)
Theorem C5_generate_option_premium (spot strike : num) :
  (py_gt spot strike = true ->
   generate_option_premium spot strike "CE"
   = let* b := intrinsic_plus_time spot spot strike in py_round_ndigits b 2) /\
  (py_gt spot strike = false ->
   generate_option_premium spot strike "CE"
   = let* b := time_value_only spot in py_round_ndigits b 2) /\
  (py_lt spot strike = true ->
   generate_option_premium spot strike "PE"
   = let* b := intrinsic_plus_time spot strike spot in py_round_ndigits b 2) /\
  (py_lt spot strike = false ->
   generate_option_premium spot strike "PE"
   = let* b := time_value_only spot in py_round_ndigits b 2) /\
  (forall b r, py_round_ndigits b 2 = Ok r -> rounded_to 2 b r) /\
  (forall option_type e,
     generate_option_premium spot strike option_type = Raise e -> e = OverflowError).
Proof.
  repeat match goal with |- _ /\ _ => split end.
  - intros H. unfold generate_option_premium. cbn [String.eqb Ascii.eqb Bool.eqb].
    rewrite H. reflexivity.
  - intros H. unfold generate_option_premium. cbn [String.eqb Ascii.eqb Bool.eqb].
    rewrite H. reflexivity.
  - intros H. unfold generate_option_premium. cbn [String.eqb Ascii.eqb Bool.eqb].
    rewrite H. reflexivity.
  - intros H. unfold generate_option_premium. cbn [String.eqb Ascii.eqb Bool.eqb].
    rewrite H. reflexivity.
  - intros b r. apply py_round_ndigits_spec.
  - intros option_type e. unfold generate_option_premium.
    assert (Hbase : forall x y, (let* a := py_sub x y in
                                 let* b := py_mul spot (PFloat (decimal 2 2)) in
                                 py_add a b) = Raise e -> e = OverflowError).
    { intros x y.
      destruct (py_sub x y) as [a | e1] eqn:Ea; cbn [rbind];
        [| intros H; injection H as <-; exact (py_sub_raises _ _ _ Ea)].
      destruct (py_mul spot _) as [b | e2] eqn:Eb; cbn [rbind];
        [| intros H; injection H as <-; exact (py_mul_raises _ _ _ Eb)].
      apply py_add_raises. }
    match goal with
    | |- rbind ?base _ = _ -> _ =>
        destruct base as [b | e1] eqn:Eb; cbn [rbind]
    end.
    + apply py_round_ndigits_raises.
    + intros H. injection H as <-.
      destruct (String.eqb option_type "CE");
        [destruct (py_gt spot strike) | destruct (py_lt spot strike)];
        first [exact (Hbase _ _ Eb) | exact (py_mul_raises _ _ _ Eb)].
Qed.

(** The value that is rounded is the binary64 one.  The spot price
    100.25 is a float; for the strike 100 the exact premium is 2.255, a
    tie that half-even rounding takes to 2.26, and the program returns
    2.25.  For the spot price 1000.5 and the strike 1050 the exact premium
    is 10.005, a tie that goes to 10.00, and the program returns 10.01.
    For the integer spot price 10^400, which no float holds, the program
    returns no premium: it raises OverflowError. *)
Lemma C5_exact_value_counterexample :
  (SF2Q (decimal 10025 2) == 10025 # 100 /\
   round_half_even (((10025 # 100) - 100 + (10025 # 100) * (2 # 100)) * 100) 226 /\
   generate_option_premium (PFloat (decimal 10025 2)) (PInt 100) "CE"
   = Ok (PFloat (decimal 225 2))) /\
  (SF2Q (decimal 10005 1) == 10005 # 10 /\
   round_half_even (((10005 # 10) * (1 # 100)) * 100) 1000 /\
   generate_option_premium (PFloat (decimal 10005 1)) (PInt 1050) "CE"
   = Ok (PFloat (decimal 1001 2))) /\
  generate_option_premium (PInt (10 ^ 400)) (PInt 0) "CE" = Raise OverflowError.
Proof.
  split; [| split; [| vm_compute; reflexivity]];
    (split; [vm_compute; reflexivity |]);
    (split; [| vm_compute; reflexivity]);
    right; split; vm_compute; reflexivity.
Qed.

(** ** [calculate_irr] *)

Lemma margin_of_zero_strike (strike : num) :
  is_zero_number strike ->
  exists sg, py_mul strike (PFloat (decimal 15 2)) = Ok (PFloat (S754_zero sg)).
Proof.
  intros [-> | [sg ->]].
  - exists false. reflexivity.
  - exists sg. destruct sg; reflexivity.
Qed.

Lemma irr_formula_zero_division (premium margin days : num) :
  ~ is_zero_number margin ->
  irr_formula premium margin days = Raise ZeroDivisionError ->
  is_zero_number days.
Proof.
  intros Hm. unfold irr_formula.
  destruct (py_truediv premium margin) as [a | e1] eqn:Ea; cbn [rbind].
  - destruct (py_truediv (PInt 365) days) as [b | e2] eqn:Eb; cbn [rbind].
    + destruct (py_mul a b) as [c | e3] eqn:Ec; cbn [rbind].
      * intros H. apply py_mul_raises in H. discriminate.
      * intros H. injection H as ->. apply py_mul_raises in Ec. discriminate.
    + intros H. injection H as ->. exact (py_truediv_zero_division _ _ Eb).
  - intros H. injection H as ->. apply py_truediv_zero_division in Ea. contradiction.
Qed.

Lemma calculate_irr_unfold (premium strike days margin : num) :
  py_mul strike (PFloat (decimal 15 2)) = Ok margin ->
  calculate_irr premium strike days
  = if py_eq margin (PInt 0) then Ok (PInt 0)
    else let* irr := irr_formula premium margin days in py_round_ndigits irr 2.
Proof.
  intros Hm. unfold calculate_irr, irr_formula. rewrite Hm. cbn [rbind].
  destruct (py_eq margin (PInt 0)); [reflexivity |].
  destruct (py_truediv premium margin) as [a |]; cbn [rbind]; [| reflexivity].
  destruct (py_truediv (PInt 365) days) as [b |]; cbn [rbind]; [| reflexivity].
  destruct (py_mul a b); cbn [rbind]; reflexivity.
Qed.

Lemma calculate_irr_zero_strike (premium strike days : num) :
  is_zero_number strike -> calculate_irr premium strike days = Ok (PInt 0).
Proof.
  intros Hs. destruct (margin_of_zero_strike strike Hs) as [sg Hm].
  rewrite (calculate_irr_unfold _ _ _ _ Hm). reflexivity.
Qed.

Lemma calculate_irr_zero_division (premium strike days : num) :
  calculate_irr premium strike days = Raise ZeroDivisionError ->
  is_zero_number days /\ ~ is_zero_number strike.
Proof.
  intros H.
  assert (Hs : ~ is_zero_number strike).
  { intros Hs. rewrite (calculate_irr_zero_strike _ _ _ Hs) in H. discriminate. }
  split; [| exact Hs].
  destruct (py_mul strike (PFloat (decimal 15 2))) as [margin | e] eqn:Em.
  - rewrite (calculate_irr_unfold _ _ _ _ Em) in H.
    destruct (py_eq margin (PInt 0)) eqn:Ez; [discriminate |].
    assert (Hmz : ~ is_zero_number margin).
    { intros Hz. apply py_eq_zero in Hz. congruence. }
    destruct (irr_formula premium margin days) as [irr | e] eqn:Ei; cbn [rbind] in H.
    + apply py_round_ndigits_raises in H. discriminate.
    + injection H as ->. exact (irr_formula_zero_division _ _ _ Hmz Ei).
  - unfold calculate_irr in H. rewrite Em in H. cbn [rbind] in H.
    injection H as ->. apply py_mul_raises in Em. discriminate.
Qed.

Lemma py_truediv_raises (x y : num) (e : exn) :
  py_truediv x y = Raise e -> e = ZeroDivisionError \/ e = OverflowError.
Proof.
  destruct x as [a | f], y as [b | g]; cbn [py_truediv].
  - unfold int_truediv. destruct (b =? 0)%Z.
    + intros H. injection H as <-. left. reflexivity.
    + cbn [rbind]. destruct (is_infinity _); [| discriminate].
      intros H. injection H as <-. right. reflexivity.
  - change (to_float (PFloat g)) with (Ok g).
    destruct (to_float (PInt a)) as [a' | e1] eqn:Ea; cbn [rbind].
    + destruct (is_zero g); [| discriminate].
      intros H. injection H as <-. left. reflexivity.
    + intros H. injection H as <-. right. exact (to_float_raises _ _ Ea).
  - change (to_float (PFloat f)) with (Ok f). cbn [rbind].
    destruct (to_float (PInt b)) as [b' | e1] eqn:Eb; cbn [rbind].
    + destruct (is_zero b'); [| discriminate].
      intros H. injection H as <-. left. reflexivity.
    + intros H. injection H as <-. right. exact (to_float_raises _ _ Eb).
  - change (to_float (PFloat f)) with (Ok f).
    change (to_float (PFloat g)) with (Ok g). cbn [rbind].
    destruct (is_zero g); [| discriminate].
    intros H. injection H as <-. left. reflexivity.
Qed.

Lemma calculate_irr_raises (premium strike days : num) (e : exn) :
  calculate_irr premium strike days = Raise e ->
  e = ZeroDivisionError \/ e = OverflowError.
Proof.
  unfold calculate_irr.
  destruct (py_mul strike _) as [m | e1] eqn:Em; cbn [rbind];
    [| intros H; injection H as <-; right; exact (py_mul_raises _ _ _ Em)].
  destruct (py_eq m (PInt 0)); [discriminate |].
  destruct (py_truediv premium m) as [a | e1] eqn:Ea; cbn [rbind];
    [| intros H; injection H as <-; exact (py_truediv_raises _ _ _ Ea)].
  destruct (py_truediv (PInt 365) days) as [b | e1] eqn:Eb; cbn [rbind];
    [| intros H; injection H as <-; exact (py_truediv_raises _ _ _ Eb)].
  destruct (py_mul a b) as [c | e1] eqn:Ec; cbn [rbind];
    [| intros H; injection H as <-; right; exact (py_mul_raises _ _ _ Ec)].
  destruct (py_mul c (PInt 100)) as [i | e1] eqn:Ei; cbn [rbind];
    [| intros H; injection H as <-; right; exact (py_mul_raises _ _ _ Ei)].
  intros H. right. exact (py_round_ndigits_raises _ _ _ H).
Qed.



(** ** The worked example *)

(** The CE IRR the pipeline computes for NIFTY is 1607.56; it is more
    than 0.38 away from 1607.95. *)
Lemma C1_ce_irr_not_1607_95 :
  exists (row : dict) (f : spec_float),
    analyze_stock __init__ nifty = Ok row /\
    dict_get "CE IRR" row = Some (VNum (PFloat f)) /\
    f = decimal 160756 2 /\
    f <> decimal 160795 2 /\
    38 # 100 < Qabs (SF2Q f - (160795 # 100)).
Proof.
  eexists. eexists. split; [vm_compute; reflexivity |].
  split; [reflexivity |].
  split; [vm_compute; reflexivity |].
  split; [vm_compute; discriminate | vm_compute; reflexivity].
Qed.

(** C1, amended: for the NIFTY record and a margin of 15, the pipeline
    produces percentile 75.0, [find_nearest_strike 19500 = 19500], a CE
    strike of 16600, a CE premium of 3290.0 and a CE IRR of 1607.56, each
    float being the binary64 number nearest to the decimal. *)
Theorem C1_nifty_example :
  calculate_percentile (PInt 19500) (PInt 20000) (PInt 18000)
  = Ok (PFloat (decimal 750 1)) /\
  find_nearest_strike (PInt 19500) default_strike_interval = Ok (PInt 19500) /\
  calculate_strike_with_margin (PInt 19500) (PInt 15) true = Ok (PInt 16600) /\
  generate_option_premium (PInt 19500) (PInt 16600) "CE"
  = Ok (PFloat (decimal 329000 2)) /\
  calculate_irr (PFloat (decimal 329000 2)) (PInt 16600) default_days_to_expiry
  = Ok (PFloat (decimal 160756 2)) /\
  exists row : dict,
    analyze_stock __init__ nifty = Ok row /\
    dict_get "Percentile" row = Some (VNum (PFloat (decimal 750 1))) /\
    dict_get "CE Strike" row = Some (VNum (PInt 16600)) /\
    dict_get "CE Premium" row = Some (VNum (PFloat (decimal 329000 2))) /\
    dict_get "CE IRR" row = Some (VNum (PFloat (decimal 160756 2))).
Proof.
  repeat match goal with |- _ /\ _ => split end; try (vm_compute; reflexivity).
  eexists. split; [vm_compute; reflexivity |].
  repeat split; vm_compute; reflexivity.
Qed.

(** The hardware floats give the same strike quotient (the tie 331.5,
    rounded to the even 332), the same premium, and an IRR that rounds to
    1607.56; and the operations of the model give, bit for bit, the
    percentile, the margin and the IRR the hardware gives. *)
Example nifty_example_binary64 : Binary64.example_checks = true.
Proof. vm_compute. reflexivity. Qed.

Example nifty_example_model_agrees :
  calculate_percentile (PInt 19500) (PInt 20000) (PInt 18000)
  = Ok (PFloat (FloatOps.Prim2SF Binary64.percentile)) /\
  py_mul (PInt 16600) (PFloat (decimal 15 2))
  = Ok (PFloat (FloatOps.Prim2SF Binary64.margin_required)) /\
  irr_formula (PInt 3290) (PFloat (FloatOps.Prim2SF Binary64.margin_required))
              default_days_to_expiry
  = Ok (PFloat (FloatOps.Prim2SF Binary64.irr)).
Proof. repeat split; vm_compute; reflexivity. Qed.

(** * Further properties of the metric formulas *)

(** ** [calculate_percentile] *)

Lemma int_truediv_self (d : Z) : d <> 0%Z -> int_truediv d d = Ok f_one.
Proof.
  intros Hd. unfold int_truediv.
  destruct (Z.eqb_spec d 0) as [| _]; [contradiction |].
  assert (Hq : fdiv (raw_float (1 * d)) (raw_float d) = f_one).
  { apply (fdiv_raw_exact 1 d 4503599627370496 (-52)); try reflexivity; try lia.
    right. split; [lia | reflexivity]. }
  rewrite Z.mul_1_l in Hq.
  destruct d; [contradiction | |]; rewrite Hq; reflexivity.
Qed.

(** X1: for int bounds [high != low] of any size, the percentile of the
    low bound is a zero and that of the high bound is exactly 100.0. *)
Theorem X1_percentile_endpoints (high low : Z) :
  high <> low ->
  calculate_percentile (PInt low) (PInt high) (PInt low)
  = Ok (PFloat (S754_zero (high - low <? 0)%Z)) /\
  calculate_percentile (PInt high) (PInt high) (PInt low)
  = Ok (PFloat (float_of_Z 100)).
Proof.
  intros Hne. unfold calculate_percentile.
  rewrite py_eq_int. destruct (Z.eqb_spec high low) as [| _]; [contradiction |].
  cbn [py_sub rbind py_truediv]. split.
  - rewrite Z.sub_diag. unfold int_truediv.
    destruct (Z.eqb_spec (high - low) 0) as [| _]; [lia |].
    cbn [is_infinity rbind py_mul]. unfold float_binop.
    destruct (high - low <? 0)%Z; reflexivity.
  - rewrite int_truediv_self by lia. reflexivity.
Qed.

Lemma X1_percentile_endpoints_witness :
  calculate_percentile (PInt 18000) (PInt 20000) (PInt 18000)
  = Ok (PFloat (S754_zero (20000 - 18000 <? 0)%Z)) /\
  calculate_percentile (PInt 20000) (PInt 20000) (PInt 18000)
  = Ok (PFloat (float_of_Z 100)).
Proof. apply (X1_percentile_endpoints 20000 18000). lia. Defined.

(** ** [find_nearest_strike] *)

(** X5: [find_nearest_strike] raises [ZeroDivisionError] for a zero
    interval only; and for a zero interval it always raises: that error,
    or [OverflowError] when the price is an int too large for a float. *)
Theorem X5_nearest_strike_zero_interval (price interval : num) :
  (find_nearest_strike price interval = Raise ZeroDivisionError ->
   py_eq interval (PInt 0) = true) /\
  (py_eq interval (PInt 0) = true ->
   find_nearest_strike price interval = Raise ZeroDivisionError \/
   ((exists a, price = PInt a) /\
    find_nearest_strike price interval = Raise OverflowError)).
Proof.
  split.
  - intros H. apply py_eq_zero.
    apply (py_truediv_zero_division price).
    apply find_nearest_strike_raises_zero_division. exact H.
  - intros H. apply py_eq_zero in H. unfold find_nearest_strike.
    destruct (py_truediv_by_zero price interval H) as [E | [Ha E]]; rewrite E.
    + left. reflexivity.
    + right. split; [exact Ha | reflexivity].
Qed.

(** ** [calculate_strike_with_margin] *)

(** X6: whatever [calculate_strike_with_margin] returns is an int, a
    whole multiple of 50. *)
Theorem X6_strike_with_margin_multiple_of_50
    (spot margin : num) (is_call : bool) (s : num) :
  calculate_strike_with_margin spot margin is_call = Ok s ->
  exists k : Z, s = PInt (k * 50).
Proof.
  unfold calculate_strike_with_margin.
  destruct (find_nearest_strike spot default_strike_interval) as [n |];
    cbn [rbind]; [| discriminate].
  match goal with
  | |- rbind ?t _ = _ -> _ => destruct t as [target |]; cbn [rbind]; [| discriminate]
  end.
  intros H. destruct (find_nearest_strike_int_inv _ _ _ H) as [q [_ [_ [_ ->]]]].
  eexists. reflexivity.
Qed.

Lemma X6_strike_with_margin_multiple_of_50_witness :
  exists k : Z, PInt 16600 = PInt (k * 50).
Proof.
  apply (X6_strike_with_margin_multiple_of_50 (PInt 19500) (PInt 15) true (PInt 16600)).
  vm_compute. reflexivity.
Defined.

Lemma to_float_finite (n : Z) :
  is_infinity (float_of_Z n) = false -> to_float (PInt n) = Ok (float_of_Z n).
Proof. intros H. unfold to_float. rewrite H. reflexivity. Qed.

(** X8: with a margin of 100 the call strike is 0, whenever the nearest
    strike of the spot price is within the range of the floats. *)
Theorem X8_full_margin_call_strike_zero (spot : num) (n : Z) :
  find_nearest_strike spot default_strike_interval = Ok (PInt n) ->
  is_infinity (float_of_Z n) = false ->
  calculate_strike_with_margin spot (PInt 100) true = Ok (PInt 0).
Proof.
  intros Hn Hfin. unfold calculate_strike_with_margin. rewrite Hn. cbn [rbind].
  change (py_truediv (PInt 100) (PInt 100)) with (Ok (PFloat f_one)). cbn [rbind].
  change (py_sub (PInt 1) (PFloat f_one)) with (Ok (PFloat (S754_zero false))).
  cbn [rbind py_mul]. unfold float_binop.
  rewrite (to_float_finite n Hfin). cbn [rbind to_float].
  assert (Hz : exists sg, fmul (float_of_Z n) (S754_zero false) = S754_zero sg).
  { assert (Hnan := float_of_Z_not_nan n).
    destruct (float_of_Z n) as [s | s | | s m e]; try discriminate; try contradiction;
      eexists; reflexivity. }
  destruct Hz as [sg ->]. destruct sg; reflexivity.
Qed.

Lemma X8_full_margin_call_strike_zero_witness :
  calculate_strike_with_margin (PInt 19500) (PInt 100) true = Ok (PInt 0).
Proof.
  apply (X8_full_margin_call_strike_zero (PInt 19500) 19500).
  - vm_compute. reflexivity.
  - vm_compute. reflexivity.
Defined.

(** ** [generate_option_premium] *)

(** X9: every option type other than ["CE"] is priced as a put. *)
Theorem X9_other_option_types_priced_as_put
    (spot strike : num) (option_type : string) :
  option_type <> "CE"%string ->
  generate_option_premium spot strike option_type
  = generate_option_premium spot strike "PE".
Proof.
  intros Hne. unfold generate_option_premium.
  apply String.eqb_neq in Hne. rewrite Hne. reflexivity.
Qed.

Lemma X9_other_option_types_priced_as_put_witness :
  generate_option_premium (PInt 19500) (PInt 22450) "ce"
  = generate_option_premium (PInt 19500) (PInt 22450) "PE".
Proof.
  apply (X9_other_option_types_priced_as_put (PInt 19500) (PInt 22450) "ce").
  discriminate.
Defined.

(** ** [calculate_irr] *)

(** X12: [calculate_irr] raises nothing but [ZeroDivisionError], and
    then [days_to_expiry] is zero, and [OverflowError]. *)
Theorem X12_irr_exceptions (premium strike days : num) (e : exn) :
  calculate_irr premium strike days = Raise e ->
  (e = ZeroDivisionError /\ py_eq days (PInt 0) = true) \/ e = OverflowError.
Proof.
  intros H. destruct (calculate_irr_raises _ _ _ _ H) as [-> | ->].
  - left. split; [reflexivity |]. apply py_eq_zero.
    apply (calculate_irr_zero_division premium strike days H).
  - right. reflexivity.
Qed.

Lemma X12_irr_exceptions_witness :
  (ZeroDivisionError = ZeroDivisionError /\ py_eq (PInt 0) (PInt 0) = true) \/
  ZeroDivisionError = OverflowError.
Proof.
  apply (X12_irr_exceptions (PInt 3290) (PInt 16600) (PInt 0) ZeroDivisionError).
  vm_compute. reflexivity.
Defined.

(** ** The arithmetic on sample inputs *)

(** Values the program computes, among them the rounded product of the
    put strike of BANKNIFTY, an underflow to -0.0, a NaN from 0.0 times an
    infinity, and ints beyond the range of the floats. *)
Example python_arithmetic_samples :
  calculate_strike_with_margin (PInt 44500) (PInt 15) false = Ok (PInt 51150) /\
  generate_option_premium (PInt 44500) (PInt 51150) "PE" = Ok (PFloat (decimal 75400 1)) /\
  calculate_irr (PFloat (decimal 75400 1)) (PInt 51150) default_days_to_expiry
  = Ok (PFloat (decimal 119566 2)) /\
  calculate_irr (PInt 171) (PInt 1600) default_days_to_expiry
  = Ok (PFloat (decimal 86687 2)) /\
  calculate_percentile (PFloat (SFopp (decimal 5 324))) (PFloat (float_of_Z (10 ^ 308)))
                       (PInt 0)
  = Ok (PFloat (S754_zero true)) /\
  calculate_percentile (PFloat (float_of_Z (10 ^ 16 + 2))) (PFloat (float_of_Z (10 ^ 16)))
                       (PFloat (float_of_Z 1))
  = Ok (PFloat (float_of_Z 100)) /\
  calculate_irr (PFloat (S754_zero false)) (PInt 50) (PFloat (decimal 1 320))
  = Ok (PFloat S754_nan) /\
  find_nearest_strike (PInt (10 ^ 400)) default_strike_interval = Raise OverflowError /\
  find_nearest_strike (PFloat (float_of_Z 3264591589524027904)) default_strike_interval
  = Ok (PInt 3264591589524028000) /\
  calculate_strike_with_margin (PInt 19500) (PFloat (float_of_Z (10 ^ 308))) true
  = Raise OverflowError.
Proof. repeat split; vm_compute; reflexivity. Qed.

(** * The analysis loop and the writers *)

(** ** Rows *)

Ltac step_rbind x :=
  match goal with
  | |- rbind ?r _ = _ -> _ =>
      destruct r as [x |] eqn:?; cbn [rbind]; [| discriminate]
  end.

(** The row of a record, when its analysis returns. *)
Lemma analyze_stock_row (self : OptionsAnalyzer) (stock : SymbolRecord) (row : dict) :
  analyze_stock self stock = Ok row ->
  exists pct lot ces cep cei pes pep pei : num,
    py_mul (lot_size stock) (lot_multiplier self) = Ok lot /\
    calculate_strike_with_margin (spot_price stock) (margin_percent self) true = Ok ces /\
    (exists irr, calculate_irr cep ces default_days_to_expiry = Ok irr /\
                 py_round_ndigits irr 2 = Ok cei) /\
    row = [ ("Symbol", VStr (symbol stock));
            ("Spot Price", VNum (spot_price stock));
            ("52W High", VNum (high_52w stock));
            ("52W Low", VNum (low_52w stock));
            ("Percentile", VNum pct);
            ("Lot Size", VNum lot);
            ("CE Strike", VNum ces); ("CE Premium", VNum cep);
            ("CE IRR", VNum cei); ("PE Strike", VNum pes);
            ("PE Premium", VNum pep); ("PE IRR", VNum pei);
            ("Margin Used (%)", VNum (margin_percent self)) ]%string.
Proof.
  unfold analyze_stock. cbv zeta.
  step_rbind percentile. step_rbind ce_strike. step_rbind pe_strike.
  step_rbind ce_premium. step_rbind pe_premium.
  step_rbind ce_irr. step_rbind pe_irr. step_rbind lot.
  step_rbind pct. step_rbind cei. step_rbind pei.
  intros H. injection H as <-.
  exists pct, lot, ce_strike, ce_premium, cei, pe_strike, pe_premium, pei.
  split; [reflexivity |]. split; [reflexivity |].
  split; [exists ce_irr; split; assumption | reflexivity].
Qed.

Lemma analyze_stock_is_analysis_row (self : OptionsAnalyzer)
    (stock : SymbolRecord) (row : dict) :
  analyze_stock self stock = Ok row -> is_analysis_row row.
Proof.
  intros H. destruct (analyze_stock_row _ _ _ H)
    as [pct [lot [ces [cep [cei [pes [pep [pei [_ [_ [_ ->]]]]]]]]]]].
  unfold is_analysis_row. do 13 eexists. reflexivity.
Qed.

(** The analysis of a record reads the parameters of the analyzer, not
    its rows. *)
Lemma analyze_stock_params (self self' : OptionsAnalyzer) (stock : SymbolRecord) :
  margin_percent self' = margin_percent self ->
  lot_multiplier self' = lot_multiplier self ->
  analyze_stock self' stock = analyze_stock self stock.
Proof.
  intros Hm Hl. unfold analyze_stock. rewrite Hm, Hl. reflexivity.
Qed.

Lemma analysed_params (self self' : OptionsAnalyzer) (stocks : list SymbolRecord) :
  margin_percent self' = margin_percent self ->
  lot_multiplier self' = lot_multiplier self ->
  analysed self' stocks = analysed self stocks.
Proof.
  intros Hm Hl. induction stocks as [| stock rest IH]; [reflexivity |].
  cbn [analysed]. rewrite (analyze_stock_params self self' stock Hm Hl), IH.
  reflexivity.
Qed.

Lemma analysed_rows (self : OptionsAnalyzer) (stocks : list SymbolRecord) :
  Forall is_analysis_row (fst (analysed self stocks)).
Proof.
  induction stocks as [| stock rest IH]; [constructor |].
  cbn [analysed].
  destruct (analyze_stock self stock) as [row | e] eqn:E; [| constructor].
  destruct (analysed self rest) as [rows e']. cbn [fst] in *.
  constructor; [exact (analyze_stock_is_analysis_row _ _ _ E) | exact IH].
Qed.

(** When no record stops the loop, there is one row per record. *)
Lemma analysed_complete (self : OptionsAnalyzer) (stocks : list SymbolRecord) :
  snd (analysed self stocks) = None ->
  rows_of self stocks (fst (analysed self stocks)).
Proof.
  induction stocks as [| stock rest IH]; [constructor |].
  cbn [analysed].
  destruct (analyze_stock self stock) as [row | e] eqn:E; [| discriminate].
  destruct (analysed self rest) as [rows e']. cbn [fst snd] in *.
  intros H. constructor; [exact E | exact (IH H)].
Qed.

Lemma with_rows_nil (self : OptionsAnalyzer) : with_rows self [] = self.
Proof. destruct self. unfold with_rows. cbn. rewrite app_nil_r. reflexivity. Qed.

Lemma with_rows_cons (self : OptionsAnalyzer) (row : dict) (rows : list dict) :
  with_rows (with_rows self [row]) rows = with_rows self (row :: rows).
Proof.
  unfold with_rows. cbn [analysis_data margin_percent lot_multiplier].
  rewrite <- app_assoc. reflexivity.
Qed.

(** The loop appends the rows of the records it gets through to the rows
    already held; nothing is removed, also when a record stops it. *)
Lemma analyze_loop_spec (stocks : list SymbolRecord) :
  forall (self : OptionsAnalyzer) (w : World),
    analyze_loop stocks (self, w)
    = (match snd (analysed self stocks) with
       | None => Ok tt
       | Some e => Raise e
       end,
       (with_rows self (fst (analysed self stocks)), w)).
Proof.
  induction stocks as [| stock rest IH]; intros self w.
  - cbn. rewrite with_rows_nil. reflexivity.
  - cbn [analyze_loop analysed]. unfold bind at 1. unfold get_self at 1. cbn [fst snd].
    unfold bind at 1. unfold lift at 1.
    destruct (analyze_stock self stock) as [row | e] eqn:E.
    + unfold bind at 1. unfold append_row, set_self. cbn [fst snd].
      fold (with_rows self [row]).
      rewrite IH.
      rewrite (analysed_params self (with_rows self [row]) rest) by reflexivity.
      destruct (analysed self rest) as [rows e']. cbn [fst snd].
      rewrite with_rows_cons. reflexivity.
    + cbn [fst snd]. rewrite with_rows_nil. reflexivity.
Qed.

Lemma analyze_with_spec (stocks : list SymbolRecord) (self : OptionsAnalyzer)
    (w : World) :
  let rows := fst (analysed self stocks) in
  analyze_with stocks (self, w)
  = match snd (analysed self stocks) with
    | None =>
        (Ok (analysis_data self ++ rows),
         (with_rows self rows,
          with_line (with_line w starting_line)
                    (completed_line (analysis_data self ++ rows))))
    | Some e => (Raise e, (with_rows self rows, with_line w starting_line))
    end.
Proof.
  cbv zeta. unfold analyze_with. unfold bind at 1. unfold print at 1. cbn [fst snd].
  unfold bind at 1. fold starting_line. rewrite analyze_loop_spec.
  destruct (snd (analysed self stocks)); reflexivity.
Qed.

(** ** The spreadsheet *)

Lemma union_keys_analysis_columns (ds : list dict) :
  Forall (fun d => keys d = analysis_columns) ds ->
  union_keys ds analysis_columns = analysis_columns.
Proof.
  induction 1 as [| d ds Hd _ IH]; [reflexivity |].
  cbn [union_keys]. rewrite Hd. exact IH.
Qed.

(** Under the thirteen columns, the cells of a row are its values in
    insertion order. *)
Lemma cells_of_row (d : dict) :
  keys d = analysis_columns ->
  map (fun c => dict_get c d) analysis_columns = cells_of d.
Proof.
  intros H. unfold keys in H. unfold cells_of.
  do 13 (destruct d as [| [? ?] d]; [discriminate H |]).
  destruct d; [| discriminate H].
  cbn [map fst] in H.
  injection H as -> -> -> -> -> -> -> -> -> -> -> -> ->.
  reflexivity.
Qed.

Lemma is_analysis_row_keys (d : dict) :
  is_analysis_row d -> keys d = analysis_columns.
Proof.
  intros [sym [spot [high [low [pct [lot [ces [cep [cei [pes [pep [pei [m ->]]]]]]]]]]]]].
  reflexivity.
Qed.

Lemma make_DataFrame_rows (ds : list dict) :
  ds <> [] -> Forall is_analysis_row ds ->
  make_DataFrame ds = mkDataFrame analysis_columns (map cells_of ds).
Proof.
  intros Hne Hall. unfold make_DataFrame.
  assert (Hkeys : Forall (fun d => keys d = analysis_columns) ds).
  { eapply Forall_impl; [| exact Hall]. intros d. apply is_analysis_row_keys. }
  assert (Hcols : union_keys ds [] = analysis_columns).
  { destruct ds as [| d ds]; [contradiction |].
    cbn [union_keys]. inversion Hkeys as [| ? ? Hd Hds]; subst.
    rewrite Hd. apply union_keys_analysis_columns. exact Hds. }
  rewrite Hcols. f_equal.
  apply map_ext_in. intros d Hin.
  apply cells_of_row.
  rewrite Forall_forall in Hkeys. apply Hkeys. exact Hin.
Qed.

(** The sheet written for rows of the analysis. *)
Lemma save_to_excel_spec (self : OptionsAnalyzer) (w : World)
    (filename : option string) :
  analysis_data self <> [] ->
  Forall is_analysis_row (analysis_data self) ->
  opening w (excel_filename filename w) = None ->
  let name := excel_filename filename w in
  let wb := to_excel (mkDataFrame analysis_columns (map cells_of (analysis_data self)))
                     "Options Analysis" in
  save_to_excel filename (self, w)
  = (Ok (Some name),
     (self, with_line (with_file w name (Spreadsheet wb))
                      [Text "✅ Excel file saved: "; Text name])).
Proof.
  intros Hne Hall Hw name wb.
  unfold save_to_excel. unfold bind at 1. unfold get_self. cbn [fst snd].
  assert (Hdf := make_DataFrame_rows _ Hne Hall).
  destruct (analysis_data self) as [| r rs] eqn:Hd; [contradiction |].
  rewrite Hdf.
  destruct filename as [f |]; cbn in Hw |- *; subst name wb;
    unfold bind, ret, now, write_file, print; cbn [fst snd excel_filename];
    rewrite Hw; reflexivity.
Qed.

Lemma rows_of_cells (self : OptionsAnalyzer) (stocks : list SymbolRecord)
    (rows : list dict) :
  rows_of self stocks rows ->
  Forall2 (row_of_record self) stocks (map cells_of rows).
Proof.
  induction 1 as [| stock row stocks rows Hrow _ IH]; cbn [map]; constructor.
  - destruct (analyze_stock_row _ _ _ Hrow)
      as [pct [lot [ces [cep [cei [pes [pep [pei [_ [_ [_ E]]]]]]]]]]].
    unfold row_of_record. rewrite E at 1 2 3 4 5.
    repeat split. exists row. split; [exact Hrow | reflexivity].
  - exact IH.
Qed.

Lemma data_rows_length (ds : list dict) (sheet : string) :
  List.length (data_rows (to_excel (make_DataFrame ds) sheet)) = List.length ds.
Proof.
  unfold to_excel, make_DataFrame. cbn [data_rows records].
  apply length_map.
Qed.

(** ** The writers on an empty row list *)

Lemma writers_no_data (self : OptionsAnalyzer) (w : World) (filename : option string) :
  analysis_data self = [] ->
  save_to_excel filename (self, w)
  = (Ok None,
     (self, with_line w [Text "❌ No data to export. Run analyze() first."])) /\
  save_graphs filename (self, w)
  = (Ok None,
     (self, with_line w [Text "❌ No data to plot. Run analyze() first."])).
Proof.
  intros Hempty.
  unfold save_to_excel, save_graphs, bind, get_self. cbn [fst snd].
  rewrite Hempty. split; reflexivity.
Qed.

(** C7: with no rows, [save_to_excel] and [save_graphs] each print their
    no-data line and return [None] in place of a file name; no exception
    is raised, the analyzer is unchanged and no file is written. *)
Theorem C7_no_data_no_file (self : OptionsAnalyzer) (w : World)
    (filename : option string) :
  analysis_data self = [] ->
  (save_to_excel filename (self, w)
   = (Ok None,
      (self, with_line w [Text "❌ No data to export. Run analyze() first."])) /\
   save_graphs filename (self, w)
   = (Ok None,
      (self, with_line w [Text "❌ No data to plot. Run analyze() first."]))) /\
  forall line, files (with_line w line) = files w.
Proof.
  intros Hempty. split; [| reflexivity].
  apply writers_no_data. exact Hempty.
Qed.

Lemma C7_no_data_no_file_witness :
  (save_to_excel None (__init__, empty_world)
   = (Ok None,
      (__init__, with_line empty_world
               [Text "❌ No data to export. Run analyze() first."])) /\
   save_graphs None (__init__, empty_world)
   = (Ok None,
      (__init__, with_line empty_world
               [Text "❌ No data to plot. Run analyze() first."]))) /\
  forall line, files (with_line empty_world line) = files empty_world.
Proof.
  apply (C7_no_data_no_file __init__ empty_world None). reflexivity.
Defined.

(** ** The report after an analysis *)

(** C8, as the code behaves: after an analysis that completes, the sheet
    [save_to_excel] writes has the thirteen column names as its header, in
    order; its data rows are the rows the analyzer held before the
    analysis, followed by one row per record, in the order of the records,
    each starting with the symbol, spot price, high and low of its record.
    There is exactly one data row per record only when the analyzer held
    no rows before. *)
Theorem C8_spreadsheet_header_and_rows
    (stocks : list SymbolRecord) (self : OptionsAnalyzer) (w : World)
    (filename : option string) :
  Forall is_analysis_row (analysis_data self) ->
  snd (analysed self stocks) = None ->
  stocks <> [] \/ analysis_data self <> [] ->
  opening w (excel_filename filename w) = None ->
  exists (wb : Workbook) (self' : OptionsAnalyzer) (w' : World)
         (new_rows : list (list (option value))),
    (analyze_with stocks ;; save_to_excel filename) (self, w)
    = (Ok (Some (excel_filename filename w)), (self', w')) /\
    read_file (excel_filename filename w) (files w') = Some (Spreadsheet wb) /\
    header wb
    = [ "Symbol"; "Spot Price"; "52W High"; "52W Low"; "Percentile";
        "Lot Size"; "CE Strike"; "CE Premium"; "CE IRR"; "PE Strike";
        "PE Premium"; "PE IRR"; "Margin Used (%)" ]%string /\
    data_rows wb = map cells_of (analysis_data self) ++ new_rows /\
    Forall2 (row_of_record self) stocks new_rows /\
    List.length (data_rows wb)
    = (List.length (analysis_data self) + List.length stocks)%nat.
Proof.
  intros Hold Hdone Hne Hw.
  assert (Hrun := analyze_with_spec stocks self w). cbv zeta in Hrun.
  rewrite Hdone in Hrun.
  assert (Hrows := analysed_complete self stocks Hdone).
  set (rows := fst (analysed self stocks)) in *.
  set (w1 := with_line (with_line w starting_line)
                       (completed_line (analysis_data self ++ rows))) in *.
  assert (Hname : excel_filename filename w1 = excel_filename filename w)
    by (destruct filename; reflexivity).
  assert (Hd1 : analysis_data (with_rows self rows) = analysis_data self ++ rows)
    by reflexivity.
  assert (Hall : Forall is_analysis_row (analysis_data (with_rows self rows))).
  { rewrite Hd1. apply Forall_app. split; [exact Hold | apply analysed_rows]. }
  assert (Hdne : analysis_data (with_rows self rows) <> []).
  { rewrite Hd1. intros E. apply app_eq_nil in E. destruct E as [Eold Enew].
    destruct Hne as [Hne | Hne]; [| contradiction].
    rewrite Enew in Hrows. inversion Hrows. subst. contradiction. }
  assert (Hsave := save_to_excel_spec (with_rows self rows) w1 filename Hdne Hall).
  cbv zeta in Hsave. rewrite Hname in Hsave. specialize (Hsave Hw).
  eexists. eexists. eexists. exists (map cells_of rows).
  split; [| split; [| split; [| split; [| split]]]].
  - unfold bind. rewrite Hrun. exact Hsave.
  - cbn [files with_line with_file read_file].
    rewrite String.eqb_refl. reflexivity.
  - reflexivity.
  - cbn [data_rows to_excel records]. rewrite Hd1. apply map_app.
  - apply rows_of_cells. exact Hrows.
  - cbn [data_rows to_excel records]. rewrite Hd1, length_map, length_app.
    rewrite (Forall2_length Hrows). reflexivity.
Qed.

Lemma C8_spreadsheet_header_and_rows_witness :
  exists (wb : Workbook) (self' : OptionsAnalyzer) (w' : World)
         (new_rows : list (list (option value))),
    (analyze_with get_sample_data ;; save_to_excel None) (__init__, empty_world)
    = (Ok (Some (excel_filename None empty_world)), (self', w')) /\
    read_file (excel_filename None empty_world) (files w')
    = Some (Spreadsheet wb) /\
    header wb
    = [ "Symbol"; "Spot Price"; "52W High"; "52W Low"; "Percentile";
        "Lot Size"; "CE Strike"; "CE Premium"; "CE IRR"; "PE Strike";
        "PE Premium"; "PE IRR"; "Margin Used (%)" ]%string /\
    data_rows wb = map cells_of (analysis_data __init__) ++ new_rows /\
    Forall2 (row_of_record __init__) get_sample_data new_rows /\
    List.length (data_rows wb)
    = (List.length (analysis_data __init__) + List.length get_sample_data)%nat.
Proof.
  apply (C8_spreadsheet_header_and_rows get_sample_data __init__ empty_world None).
  - constructor.
  - vm_compute. reflexivity.
  - left. discriminate.
  - reflexivity.
Defined.

(** ** Repeated runs *)

Lemma preserves_ret {A : Type} (a : A) : preserves_self (ret a).
Proof. intros st. reflexivity. Qed.

Lemma preserves_raise {A : Type} (e : exn) : preserves_self (@raise A e).
Proof. intros st. reflexivity. Qed.

Lemma preserves_print (line : list piece) : preserves_self (print line).
Proof. intros st. reflexivity. Qed.

Lemma preserves_now : preserves_self now.
Proof. intros st. reflexivity. Qed.

Lemma preserves_lift {A : Type} (r : result A) : preserves_self (lift r).
Proof. intros st. reflexivity. Qed.

Lemma preserves_get_self : preserves_self get_self.
Proof. intros st. reflexivity. Qed.

Lemma preserves_write_file (name : string) (a : artifact) :
  preserves_self (write_file name a).
Proof.
  intros st. unfold write_file.
  destruct (opening (snd st) name); reflexivity.
Qed.

Lemma preserves_draw (fig : Figure) : preserves_self (draw fig).
Proof.
  intros st. unfold draw.
  destruct (draws (snd st) fig); reflexivity.
Qed.

Lemma preserves_bind {A B : Type} (m : M A) (k : A -> M B) :
  preserves_self m -> (forall a, preserves_self (k a)) ->
  preserves_self (bind m k).
Proof.
  intros Hm Hk st. unfold bind.
  specialize (Hm st).
  destruct (m st) as [[a | e] st'] eqn:E; cbn [fst snd] in Hm.
  - rewrite Hk. exact Hm.
  - exact Hm.
Qed.

Create HintDb preserves.

#[local] Hint Resolve preserves_ret preserves_raise preserves_print preserves_now
  preserves_lift preserves_get_self preserves_write_file preserves_draw : preserves.

Ltac preserves_step :=
  repeat first
    [ apply preserves_bind; [| intros ?]
    | solve [auto with preserves] ].

Lemma preserves_save_to_excel (filename : option string) :
  preserves_self (save_to_excel filename).
Proof.
  unfold save_to_excel.
  apply preserves_bind; [auto with preserves | intros self].
  destruct (analysis_data self); [preserves_step |].
  apply preserves_bind; [destruct filename; preserves_step | intros name].
  destruct (forallb _ _); preserves_step.
Qed.

Lemma preserves_save_graphs (filename : option string) :
  preserves_self (save_graphs filename).
Proof.
  unfold save_graphs.
  apply preserves_bind; [auto with preserves | intros self].
  destruct (analysis_data self); [preserves_step |].
  destruct filename; preserves_step.
Qed.

Lemma preserves_save_outputs : preserves_self save_outputs.
Proof.
  unfold save_outputs.
  apply preserves_bind; [apply preserves_save_to_excel | intros ?].
  apply preserves_bind; [apply preserves_save_graphs | intros ?].
  preserves_step.
Qed.

(** [run] is its banner and parameter update, then [analyze], then the
    writers. *)
Lemma run_with_unfold (stocks : list SymbolRecord) (margin lot : num)
    (self : OptionsAnalyzer) (w : World) :
  run_with stocks margin lot (self, w)
  = (analyze_with stocks ;; save_outputs)
      (mkAnalyzer (analysis_data self) margin lot, after_banner w margin lot).
Proof. reflexivity. Qed.

(** The analyzer a run leaves behind: the parameters of the run, and the
    rows it held before followed by the new rows.  This holds whether the
    run returns or raises, in the analysis or in a writer. *)
Lemma run_with_self (stocks : list SymbolRecord) (margin lot : num)
    (self : OptionsAnalyzer) (w : World) :
  fst (snd (run_with stocks margin lot (self, w)))
  = mkAnalyzer (analysis_data self
                ++ fst (analysed (mkAnalyzer [] margin lot) stocks))
               margin lot.
Proof.
  rewrite run_with_unfold. unfold bind at 1.
  rewrite analyze_with_spec.
  rewrite (analysed_params (mkAnalyzer [] margin lot)
             (mkAnalyzer (analysis_data self) margin lot) stocks) by reflexivity.
  destruct (snd (analysed (mkAnalyzer [] margin lot) stocks)).
  - reflexivity.
  - rewrite preserves_save_outputs. reflexivity.
Qed.

(** C9, as the code behaves: [run] does not empty the row list.  On a new
    analyzer the first run leaves the rows of its analysis; a second run
    on the same analyzer leaves the rows of the first run followed by
    those of the second; when the analysis completes that is one row per
    record after the first run and twice as many after the second. *)
Theorem C9_second_run_keeps_first_rows
    (stocks : list SymbolRecord) (margin lot : num)
    (self : OptionsAnalyzer) (w : World) :
  analysis_data self = [] ->
  let st1 := snd (run_with stocks margin lot (self, w)) in
  let st2 := snd (run_with stocks margin lot st1) in
  let rows := fst (analysed (mkAnalyzer [] margin lot) stocks) in
  analysis_data (fst st1) = rows /\
  analysis_data (fst st2) = rows ++ rows /\
  (snd (analysed (mkAnalyzer [] margin lot) stocks) = None ->
   rows_of (mkAnalyzer [] margin lot) stocks rows /\
   List.length (analysis_data (fst st1)) = List.length stocks /\
   List.length (analysis_data (fst st2)) = (2 * List.length stocks)%nat).
Proof.
  intros Hfresh st1 st2 rows.
  assert (H1 := run_with_self stocks margin lot self w). fold st1 in H1.
  destruct st1 as [self1 w1] eqn:E1. cbn [fst] in H1.
  assert (H2 := run_with_self stocks margin lot self1 w1). fold st2 in H2.
  fold rows in H1, H2. rewrite Hfresh in H1. cbn [app] in H1.
  cbn [fst]. rewrite H2, H1. cbn [analysis_data].
  split; [reflexivity |]. split; [reflexivity |].
  intros Hdone. assert (Hrows := analysed_complete _ _ Hdone). fold rows in Hrows.
  split; [exact Hrows |].
  rewrite length_app, <- (Forall2_length Hrows). split; lia.
Qed.

Lemma C9_second_run_keeps_first_rows_witness :
  let st1 := snd (run_with get_sample_data (PInt 15) (PInt 1) (__init__, empty_world)) in
  let st2 := snd (run_with get_sample_data (PInt 15) (PInt 1) st1) in
  let rows := fst (analysed (mkAnalyzer [] (PInt 15) (PInt 1)) get_sample_data) in
  analysis_data (fst st1) = rows /\
  analysis_data (fst st2) = rows ++ rows /\
  (snd (analysed (mkAnalyzer [] (PInt 15) (PInt 1)) get_sample_data) = None ->
   rows_of (mkAnalyzer [] (PInt 15) (PInt 1)) get_sample_data rows /\
   List.length (analysis_data (fst st1)) = List.length get_sample_data /\
   List.length (analysis_data (fst st2)) = (2 * List.length get_sample_data)%nat).
Proof.
  apply (C9_second_run_keeps_first_rows get_sample_data (PInt 15) (PInt 1)
           __init__ empty_world).
  reflexivity.
Defined.

(** The script's single run writes a report of ten data rows; a second
    [run] on the same object writes twenty, for the same ten records. *)
Example second_run_sample_data :
  report_rows "Options_Analysis_20240101_093000.xlsx"
    (snd (main (__init__, empty_world))) = Some 10%nat /\
  report_rows "Options_Analysis_20240101_093000.xlsx"
    (snd ((main ;; run (PInt 15) (PInt 1)) (__init__, empty_world))) = Some 20%nat /\
  List.length get_sample_data = 10%nat.
Proof. vm_compute. repeat split; reflexivity. Qed.

(** * Further properties of the analysis and the writers *)

(** ** Rows *)

(** X14: the row of a record, whenever its analysis returns, has the
    thirteen keys in order, carries the symbol, spot, high and low of the
    record unchanged, the lot size times the multiplier, and the margin
    in use. *)
Theorem X14_row_of_every_record (self : OptionsAnalyzer) (stock : SymbolRecord)
    (row : dict) :
  analyze_stock self stock = Ok row ->
  keys row
  = [ "Symbol"; "Spot Price"; "52W High"; "52W Low"; "Percentile";
      "Lot Size"; "CE Strike"; "CE Premium"; "CE IRR"; "PE Strike";
      "PE Premium"; "PE IRR"; "Margin Used (%)" ]%string /\
  dict_get "Symbol" row = Some (VStr (symbol stock)) /\
  dict_get "Spot Price" row = Some (VNum (spot_price stock)) /\
  dict_get "52W High" row = Some (VNum (high_52w stock)) /\
  dict_get "52W Low" row = Some (VNum (low_52w stock)) /\
  (exists lot, py_mul (lot_size stock) (lot_multiplier self) = Ok lot /\
               dict_get "Lot Size" row = Some (VNum lot)) /\
  dict_get "Margin Used (%)" row = Some (VNum (margin_percent self)).
Proof.
  intros Hrow.
  destruct (analyze_stock_row _ _ _ Hrow)
    as [pct [lot [ces [cep [cei [pes [pep [pei [Hlot [_ [_ ->]]]]]]]]]]].
  repeat split. exists lot. split; [exact Hlot | reflexivity].
Qed.

Lemma X14_row_of_every_record_witness :
  exists row,
    analyze_stock __init__ nifty = Ok row /\
    dict_get "Symbol" row = Some (VStr "NIFTY") /\
    dict_get "Lot Size" row = Some (VNum (PInt 50)).
Proof.
  assert (H : exists row, analyze_stock __init__ nifty = Ok row)
    by (eexists; vm_compute; reflexivity).
  destruct H as [row Hrow]. exists row.
  destruct (X14_row_of_every_record __init__ nifty row Hrow)
    as [_ [Hsym [_ [_ [_ [[lot [Hlot Hl]] _]]]]]].
  split; [exact Hrow |]. split; [exact Hsym |].
  rewrite Hl. cbn in Hlot. injection Hlot as <-. reflexivity.
Defined.

(** The strike at full margin: the target price is the nearest strike
    times 0.0. *)
Lemma full_margin_call_strike (spot s : num) :
  calculate_strike_with_margin spot (PInt 100) true = Ok s -> s = PInt 0.
Proof.
  unfold calculate_strike_with_margin.
  destruct (find_nearest_strike spot default_strike_interval) as [n0 |] eqn:En;
    cbn [rbind]; [| discriminate].
  destruct (find_nearest_strike_int_inv _ _ _ En) as [q [_ [_ [_ ->]]]].
  change (py_truediv (PInt 100) (PInt 100)) with (Ok (PFloat f_one)). cbn [rbind].
  change (py_sub (PInt 1) (PFloat f_one)) with (Ok (PFloat (S754_zero false))).
  cbn [rbind py_mul]. unfold float_binop.
  destruct (to_float (PInt _)) as [f |] eqn:Ef; cbn [rbind to_float]; [| discriminate].
  destruct (to_float_int _ _ Ef) as [_ [Hinf Hnan]].
  assert (Hz : exists sg, fmul f (S754_zero false) = S754_zero sg).
  { destruct f as [sg | sg | | sg m e]; try discriminate; try contradiction;
      eexists; reflexivity. }
  destruct Hz as [sg ->].
  destruct sg; intros H; injection H as <-; reflexivity.
Qed.

(** X15: with a margin of 100 the pipeline reaches the zero-strike guard
    of [calculate_irr]: a row, whenever the analysis returns one, has a CE
    strike of 0 and a CE IRR of 0. *)
Theorem X15_full_margin_row (self : OptionsAnalyzer) (stock : SymbolRecord)
    (row : dict) :
  margin_percent self = PInt 100 ->
  analyze_stock self stock = Ok row ->
  dict_get "CE Strike" row = Some (VNum (PInt 0)) /\
  dict_get "CE IRR" row = Some (VNum (PInt 0)).
Proof.
  intros Hm Hrow.
  destruct (analyze_stock_row _ _ _ Hrow)
    as [pct [lot [ces [cep [cei [pes [pep [pei [_ [Hces [[irr [Hirr Hcei]] ->]]]]]]]]]]].
  rewrite Hm in Hces. apply full_margin_call_strike in Hces. subst ces.
  rewrite calculate_irr_zero_strike in Hirr by (left; reflexivity).
  injection Hirr as <-. cbn in Hcei. injection Hcei as <-.
  split; reflexivity.
Qed.

Lemma X15_full_margin_row_witness :
  exists row,
    analyze_stock (mkAnalyzer [] (PInt 100) (PInt 1)) nifty = Ok row /\
    dict_get "CE Strike" row = Some (VNum (PInt 0)) /\
    dict_get "CE IRR" row = Some (VNum (PInt 0)).
Proof.
  assert (H : exists row, analyze_stock (mkAnalyzer [] (PInt 100) (PInt 1)) nifty = Ok row)
    by (eexists; vm_compute; reflexivity).
  destruct H as [row Hrow]. exists row. split; [exact Hrow |].
  apply (X15_full_margin_row (mkAnalyzer [] (PInt 100) (PInt 1)) nifty row);
    [reflexivity | exact Hrow].
Defined.

(** ** [analyze] *)

(** X17: [analyze] keeps the rows the analyzer already holds and appends
    the rows of the records it gets through, in order; it writes no file.
    When every record is analysed it returns the whole list and prints its
    two lines, the second with the total number of rows held; when a
    record raises, the rows of the records before it stay appended. *)
Theorem X17_analyze_appends (stocks : list SymbolRecord)
    (self : OptionsAnalyzer) (w : World) :
  let rows := fst (analysed self stocks) in
  exists w' : World,
    analyze_with stocks (self, w)
    = (match snd (analysed self stocks) with
       | None => Ok (analysis_data self ++ rows)
       | Some e => Raise e
       end,
       (mkAnalyzer (analysis_data self ++ rows)
                   (margin_percent self) (lot_multiplier self), w')) /\
    files w' = files w /\
    Forall is_analysis_row rows /\
    (snd (analysed self stocks) = None ->
     Forall2 (fun stock row => analyze_stock self stock = Ok row) stocks rows /\
     stdout w'
     = stdout w
       ++ [ [Text "🔄 Starting Options Analysis..."];
            [Text "✅ Analysis completed for ";
             Number (len_number (analysis_data self ++ rows));
             Text " symbols!"] ]).
Proof.
  cbv zeta. rewrite analyze_with_spec.
  assert (Hrows := analysed_rows self stocks).
  destruct (snd (analysed self stocks)) as [e |] eqn:Hs.
  - eexists. split; [reflexivity |]. split; [reflexivity |].
    split; [exact Hrows | discriminate].
  - eexists. split; [reflexivity |]. split; [reflexivity |].
    split; [exact Hrows |]. intros _.
    split; [exact (analysed_complete self stocks Hs) |].
    cbn [stdout with_line]. rewrite <- app_assoc. reflexivity.
Qed.

(** ** The writers *)

(** X18: neither writer changes the analyzer (rows and parameters),
    whether it returns or raises. *)
Theorem X18_writers_leave_analyzer (filename : option string)
    (self : OptionsAnalyzer) (w : World) :
  fst (snd (save_to_excel filename (self, w))) = self /\
  fst (snd (save_graphs filename (self, w))) = self.
Proof.
  split.
  - apply (preserves_save_to_excel filename (self, w)).
  - apply (preserves_save_graphs filename (self, w)).
Qed.



Lemma save_to_excel_rejected (self : OptionsAnalyzer) (w : World)
    (filename : option string) (e : exn) :
  analysis_data self <> [] ->
  opening w (excel_filename filename w) = Some e ->
  save_to_excel filename (self, w) = (Raise e, (self, w)).
Proof.
  intros Hne Hw.
  unfold save_to_excel. unfold bind at 1. unfold get_self. cbn [fst snd].
  destruct (analysis_data self) as [| r rs] eqn:Hd; [contradiction |].
  destruct filename as [f |]; cbn [excel_filename] in Hw;
    unfold bind, ret, now, write_file, raise, print; cbn [fst snd];
    destruct (forallb _ _); cbn [fst snd]; rewrite Hw; reflexivity.
Qed.

(** X20: when the file cannot be opened for writing, [save_to_excel]
    raises the exception of the opening ([OSError] when the file system
    rejects the write) and leaves everything as it was: no file, no line
    printed, the analyzer unchanged. *)
Theorem X20_save_to_excel_write_rejected (self : OptionsAnalyzer) (w : World)
    (filename : option string) (e : exn) :
  analysis_data self <> [] ->
  opening w (excel_filename filename w) = Some e ->
  save_to_excel filename (self, w) = (Raise e, (self, w)).
Proof.
  intros Hne Hw. apply save_to_excel_rejected; assumption.
Qed.

Lemma X20_save_to_excel_write_rejected_witness :
  save_to_excel None
    (mkAnalyzer [[("Symbol"%string, VStr "NIFTY")]] (PInt 15) (PInt 1),
     mkWorld [] [] "20240101_093000" (fun _ => Some OSError) (fun _ => None))
  = (Raise OSError,
     (mkAnalyzer [[("Symbol"%string, VStr "NIFTY")]] (PInt 15) (PInt 1),
      mkWorld [] [] "20240101_093000" (fun _ => Some OSError) (fun _ => None))).
Proof.
  apply (X20_save_to_excel_write_rejected
           (mkAnalyzer [[("Symbol"%string, VStr "NIFTY")]] (PInt 15) (PInt 1))
           (mkWorld [] [] "20240101_093000" (fun _ => Some OSError) (fun _ => None))
           None OSError).
  - discriminate.
  - reflexivity.
Defined.

(** ** The chart and the whole run *)



Lemma analysis_row_cell (i : nat) (d : dict) :
  (1 <= i)%nat -> is_analysis_row d ->
  nth i (cells_of d) None = None \/
  exists q, nth i (cells_of d) None = Some (VNum q).
Proof.
  intros Hi [sym [spot [high [low [pct [lot [ces [cep [cei [pes [pep [pei [m ->]]]]]]]]]]]]].
  destruct i as [| i]; [lia |].
  do 12 (destruct i as [| i]; [right; eexists; reflexivity |]).
  left. destruct i; reflexivity.
Qed.

Lemma as_numbers_column (i : nat) (ds : list dict) :
  (1 <= i)%nat -> Forall is_analysis_row ds ->
  exists qs,
    as_numbers (map (fun r => nth i r None) (map cells_of ds)) = Ok qs /\
    List.length qs = List.length ds.
Proof.
  intros Hi Hall.
  induction Hall as [| d ds Hd _ [qs [IH Hlen]]].
  - exists []. split; reflexivity.
  - cbn [map as_numbers]. rewrite IH. cbn [rbind].
    destruct (analysis_row_cell i d Hi Hd) as [-> | [q ->]];
      eexists; (split; [reflexivity | cbn [List.length]; rewrite Hlen; reflexivity]).
Qed.

Lemma percentile_colours_column (i : nat) (ds : list dict) :
  (1 <= i)%nat -> Forall is_analysis_row ds ->
  exists cs,
    percentile_colours (map (fun r => nth i r None) (map cells_of ds)) = Ok cs /\
    List.length cs = List.length ds.
Proof.
  intros Hi Hall.
  induction Hall as [| d ds Hd _ [cs [IH Hlen]]].
  - exists []. split; reflexivity.
  - cbn [map percentile_colours]. rewrite IH. cbn [rbind].
    destruct (analysis_row_cell i d Hi Hd) as [-> | [q ->]];
      eexists; (split; [reflexivity | cbn [List.length]; rewrite Hlen; reflexivity]).
Qed.

Lemma numeric_column_analysis (col : string) (i : nat) (ds : list dict) :
  index_of col analysis_columns = Some i ->
  (1 <= i)%nat -> Forall is_analysis_row ds ->
  exists qs,
    numeric_column (mkDataFrame analysis_columns (map cells_of ds)) col = Ok qs /\
    List.length qs = List.length ds.
Proof.
  intros Hidx Hi Hall.
  unfold numeric_column, column. cbn [columns records]. rewrite Hidx.
  cbn [rbind]. apply as_numbers_column; assumption.
Qed.

(** From rows of the analysis the figure is built: no column is missing,
    none holds text, and every series has one value per row. *)
Lemma build_figure_analysis (ds : list dict) :
  ds <> [] -> Forall is_analysis_row ds ->
  exists fig,
    build_figure (make_DataFrame ds) = Ok fig /\
    List.length (fst (irr_bars fig)) = List.length ds /\
    List.length (snd (irr_bars fig)) = List.length ds /\
    List.length (fst (premium_bars fig)) = List.length ds /\
    List.length (snd (premium_bars fig)) = List.length ds /\
    List.length (percentile_bars fig) = List.length ds /\
    List.length (fst (fst (price_lines fig))) = List.length ds /\
    List.length (snd (fst (price_lines fig))) = List.length ds /\
    List.length (snd (price_lines fig)) = List.length ds /\
    ratio_operands fig
    = ((fst (premium_bars fig), snd (fst (price_lines fig))),
       (snd (premium_bars fig), snd (price_lines fig))).
Proof.
  intros Hne Hall. rewrite (make_DataFrame_rows ds Hne Hall).
  unfold build_figure.
  destruct (numeric_column_analysis "CE IRR" 8 ds eq_refl ltac:(lia) Hall)
    as [ci [-> Lci]]. cbn [rbind].
  destruct (numeric_column_analysis "PE IRR" 11 ds eq_refl ltac:(lia) Hall)
    as [pi [-> Lpi]]. cbn [rbind].
  change (column (mkDataFrame analysis_columns (map cells_of ds)) "Symbol")
    with (@Ok (list (option value))
              (map (fun r => nth 0 r None) (map cells_of ds))).
  cbn [rbind].
  destruct (numeric_column_analysis "CE Premium" 7 ds eq_refl ltac:(lia) Hall)
    as [cp [-> Lcp]]. cbn [rbind].
  destruct (numeric_column_analysis "PE Premium" 10 ds eq_refl ltac:(lia) Hall)
    as [pp [-> Lpp]]. cbn [rbind].
  change (column (mkDataFrame analysis_columns (map cells_of ds)) "Percentile")
    with (@Ok (list (option value))
              (map (fun r => nth 4 r None) (map cells_of ds))).
  cbn [rbind].
  destruct (percentile_colours_column 4 ds ltac:(lia) Hall) as [pc [-> Lpc]].
  cbn [rbind].
  destruct (numeric_column_analysis "Spot Price" 1 ds eq_refl ltac:(lia) Hall)
    as [sp [-> Lsp]]. cbn [rbind].
  destruct (numeric_column_analysis "CE Strike" 6 ds eq_refl ltac:(lia) Hall)
    as [cs [-> Lcs]]. cbn [rbind].
  destruct (numeric_column_analysis "PE Strike" 9 ds eq_refl ltac:(lia) Hall)
    as [ps [-> Lps]]. cbn [rbind].
  eexists. split; [reflexivity |].
  cbn [irr_bars premium_bars percentile_bars price_lines ratio_operands fst snd].
  repeat split; assumption.
Qed.




Lemma rows_of_analysis_rows (self : OptionsAnalyzer) (stocks : list SymbolRecord)
    (rows : list dict) :
  rows_of self stocks rows -> Forall is_analysis_row rows.
Proof.
  induction 1 as [| stock row stocks rows Hrow _ IH]; constructor.
  - apply (analyze_stock_is_analysis_row self stock row Hrow).
  - exact IH.
Qed.

(** X21: the figure [save_graphs] builds from rows [analyze] produced
    has, in the IRR, premium, percentile and price panels, one value per
    row, and takes the operands of the two ratios from the premium and
    strike series; no column is missing and none holds text. *)
Theorem X21_chart_series_one_value_per_row (self : OptionsAnalyzer)
    (stocks : list SymbolRecord) (rows : list dict) :
  stocks <> [] ->
  Forall2 (fun stock row => analyze_stock self stock = Ok row) stocks rows ->
  exists fig,
    build_figure (make_DataFrame rows) = Ok fig /\
    List.length (fst (irr_bars fig)) = List.length stocks /\
    List.length (snd (irr_bars fig)) = List.length stocks /\
    List.length (fst (premium_bars fig)) = List.length stocks /\
    List.length (snd (premium_bars fig)) = List.length stocks /\
    List.length (percentile_bars fig) = List.length stocks /\
    List.length (fst (fst (price_lines fig))) = List.length stocks /\
    List.length (snd (fst (price_lines fig))) = List.length stocks /\
    List.length (snd (price_lines fig)) = List.length stocks /\
    ratio_operands fig
    = ((fst (premium_bars fig), snd (fst (price_lines fig))),
       (snd (premium_bars fig), snd (price_lines fig))).
Proof.
  intros Hne Hrows.
  assert (Hrne : rows <> []).
  { intros ->. inversion Hrows. subst. contradiction. }
  rewrite (Forall2_length Hrows).
  apply build_figure_analysis; [exact Hrne |].
  apply (rows_of_analysis_rows self stocks). exact Hrows.
Qed.

Lemma X21_chart_series_one_value_per_row_witness :
  let rows := fst (analysed __init__ [nifty]) in
  exists fig,
    build_figure (make_DataFrame rows) = Ok fig /\
    List.length (fst (irr_bars fig)) = List.length [nifty] /\
    List.length (snd (irr_bars fig)) = List.length [nifty] /\
    List.length (fst (premium_bars fig)) = List.length [nifty] /\
    List.length (snd (premium_bars fig)) = List.length [nifty] /\
    List.length (percentile_bars fig) = List.length [nifty] /\
    List.length (fst (fst (price_lines fig))) = List.length [nifty] /\
    List.length (snd (fst (price_lines fig))) = List.length [nifty] /\
    List.length (snd (price_lines fig)) = List.length [nifty] /\
    ratio_operands fig
    = ((fst (premium_bars fig), snd (fst (price_lines fig))),
       (snd (premium_bars fig), snd (price_lines fig))).
Proof.
  apply (X21_chart_series_one_value_per_row __init__ [nifty]).
  - discriminate.
  - apply (analysed_complete __init__ [nifty]). vm_compute. reflexivity.
Defined.














